(** * Bulk creation of message drafts

    A shallow embedding of [zerver/views/drafts.py]: the per-descriptor
    normaliser [further_validated_draft_dict] and the batch endpoint
    [create_drafts], followed by the properties the design document states
    about them.

    Python values are embedded as follows.
    - [str] is [string]; one [ascii] stands for one code point, and the
      null character is [Ascii.zero].
    - a timestamp is an [int] or a [float] ([check_union([check_int,
      check_float])]): [PyInt] carries a [Z], [PyFloat] a binary64 value.
    - raising is the [Raised] outcome of a state-and-exception monad whose
      state is the part of the world the request can observe or change: the
      wall clock, the drafts table, and a log of the calls made to the
      collaborators outside this module.
    - [_()] (ugettext) is the identity: messages are compared by their
      English text, as the design document does. *)

From Stdlib Require Import ZArith List Bool String Ascii Lia DecimalString.
From Stdlib Require Import Floats.PrimFloat Floats.SpecFloat Floats.FloatOps.
Import ListNotations.

Set Warnings "-inexact-float".
Local Open Scope string_scope.
Local Open Scope list_scope.
Local Open Scope Z_scope.

(** ** Python numbers *)

Module PyNum.

Inductive Number : Type :=
| PyInt (z : Z)
| PyFloat (f : float).

(** Nearest integer to [num / den] ([den > 0]), ties to the even one. *)
Definition round_half_even (num den : Z) : Z :=
  let q := num / den in
  match (2 * (num mod den)) ?= den with
  | Lt => q
  | Gt => q + 1
  | Eq => if Z.even q then q else q + 1
  end.

(** [float.__round__(ndigits)] for [ndigits >= 0] within the range where
    CPython rounds at all: the exact binary value is rounded to [ndigits]
    decimals (correctly, ties to even), and the resulting decimal is read
    back as the nearest binary64.  Zeros, infinities and NaN round to
    themselves, and the sign survives a result of zero. *)
Definition float_round (x : float) (ndigits : Z) : float :=
  match Prim2SF x with
  | S754_finite s m e =>
      let p := 10 ^ ndigits in
      let n := if 0 <=? e then Z.pos m * 2 ^ e * p
               else round_half_even (Z.pos m * p) (2 ^ (- e)) in
      match n, p with
      | Z.pos n', Z.pos p' =>
          SF2Prim (SFdiv prec emax (S754_finite s n' 0) (S754_finite false p' 0))
      | _, _ => SF2Prim (S754_zero s)
      end
  | _ => x
  end.

(** [round(number, ndigits)]: an [int] is returned unchanged when
    [ndigits >= 0]. *)
Definition round (number : Number) (ndigits : Z) : Number :=
  match number with
  | PyInt z => PyInt z
  | PyFloat f => PyFloat (float_round f ndigits)
  end.

(** [number < 0]. *)
Definition lt_zero (number : Number) : bool :=
  match number with
  | PyInt z => z <? 0
  | PyFloat f => PrimFloat.ltb f 0%float
  end.

End PyNum.
Import PyNum.

(** ** Python strings *)

Module PyStr.

Definition NUL : ascii := Ascii.zero.

(** ["\x00" in s] *)
Fixpoint contains_nul (s : string) : bool :=
  match s with
  | EmptyString => false
  | String c rest => Ascii.eqb c NUL || contains_nul rest
  end.

(** [s[:n]] *)
Fixpoint prefix (n : nat) (s : string) : string :=
  match n, s with
  | O, _ => EmptyString
  | S _, EmptyString => EmptyString
  | S n', String c rest => String c (prefix n' rest)
  end.

(** [str(i)] for an [int]. *)
Definition str (i : Z) : string := NilZero.string_of_int (Z.to_int i).

End PyStr.
Import PyStr.

(** ** Entities *)

Definition Realm := Z.

Record UserProfile : Type := mkUserProfile
  { user_id : Z;
    realm : Realm }.

Inductive Recipient : Type := mkRecipient (recipient_id : Z).
Inductive Stream : Type := mkStream (stream_id : Z).
Inductive Subscription : Type := mkSubscription (subscription_id : Z).

(** Modelled from the spec: [zerver.lib.timestamp.timestamp_to_datetime] is
    not part of the sources at hand; the design document only says that it
    converts the timestamp "to an absolute point-in-time value for storage".
    The point in time is kept as the timestamp it was made from. *)
Inductive datetime : Type := utc_from_timestamp (timestamp : Number).

Definition timestamp_to_datetime (timestamp : Number) : datetime :=
  utc_from_timestamp timestamp.

(** A draft dictionary that went through [draft_dict_validator]: every
    required key is present with a value of the validated type. *)
Record DraftDict : Type := mkDraftDict
  { type : string;
    to : list Z;
    topic : string;
    content : string;
    timestamp : option Number }.

Definition VALID_DRAFT_TYPES : list string := [""; "private"; "stream"].

(** Modelled from the spec: the validators of [zerver.lib.validator] are not
    part of the sources at hand.  What [draft_dict_validator] still has to
    decide on a typed record is that [type] is one of the three literals and
    that [content] is "a non-empty string". *)
Definition draft_dict_validator (draft_dict : DraftDict) : bool :=
  existsb (String.eqb (type draft_dict)) VALID_DRAFT_TYPES
  && negb (String.eqb (content draft_dict) "").

(** The dictionary returned by [further_validated_draft_dict]. *)
Record ValidDraftDict : Type := mkValidDraftDict
  { vd_recipient : option Recipient;
    vd_topic : string;
    vd_content : string;
    vd_last_edit_time : datetime }.

(** A [Draft] model instance; [draft_id] is [None] until it is saved. *)
Record Draft : Type := mkDraft
  { draft_id : option Z;
    draft_user_profile : UserProfile;
    draft_recipient : option Recipient;
    draft_topic : string;
    draft_content : string;
    draft_last_edit_time : datetime }.

Inductive HttpResponse : Type :=
| json_success (ids : list (option Z)).

(** ** Exceptions, the world and the monad *)

Inductive Exn : Type :=
| JsonableError (msg : string)
| ValidationError (messages : list string)
| IndexError.

(** Calls that leave this module. *)
Inductive Call : Type :=
| CallTime
| CallAccessStream (user_profile : UserProfile) (stream_id : Z)
| CallGetUserProfiles (user_ids : list Z) (realm : Realm)
| CallRecipientFor (user_profiles : list UserProfile) (sender : UserProfile)
| CallBulkCreate (objs : list Draft).

(** The calls that resolve a recipient. *)
Definition is_resolution_call (c : Call) : bool :=
  match c with
  | CallAccessStream _ _ | CallGetUserProfiles _ _ | CallRecipientFor _ _ => true
  | CallTime | CallBulkCreate _ => false
  end.

Definition is_bulk_create (c : Call) : bool :=
  match c with
  | CallBulkCreate _ => true
  | _ => false
  end.

Record World : Type := mkWorld
  { now : float;
    drafts_table : list Draft;
    next_id : Z;
    calls : list Call }.

Inductive Outcome (A : Type) : Type :=
| Returned (a : A)
| Raised (e : Exn).
Arguments Returned {A} a.
Arguments Raised {A} e.

Definition M (A : Type) : Type := World -> Outcome A * World.

Definition ret {A} (a : A) : M A := fun w => (Returned a, w).

Definition bind {A B} (m : M A) (k : A -> M B) : M B :=
  fun w =>
    match m w with
    | (Returned a, w') => k a w'
    | (Raised e, w') => (Raised e, w')
    end.

Definition raise {A} (e : Exn) : M A := fun w => (Raised e, w).

(** [try: m  except ValidationError as e: handler(e.messages)] *)
Definition try_except_ValidationError {A} (m : M A) (handler : list string -> M A) : M A :=
  fun w =>
    match m w with
    | (Raised (ValidationError messages), w') => handler messages w'
    | r => r
    end.

Definition log (c : Call) : M unit :=
  fun w =>
    (Returned tt,
     {| now := now w;
        drafts_table := drafts_table w;
        next_id := next_id w;
        calls := calls w ++ [c] |}).

(** [quiet P m]: a run of [m] leaves the drafts table and the identifier
    sequence alone, and every call it adds to the log satisfies [P]. *)
Definition quiet (P : Call -> bool) {A} (m : M A) : Prop :=
  forall w o w',
    m w = (o, w') ->
    drafts_table w' = drafts_table w /\
    next_id w' = next_id w /\
    exists extra, calls w' = calls w ++ extra /\ forallb P extra = true.

Definition not_bulk_create (c : Call) : bool := negb (is_bulk_create c).

Declare Scope py_scope.
Delimit Scope py_scope with py.
Notation "x <- m ;; k" := (bind m (fun x => k))
  (at level 100, m at next level, right associativity) : py_scope.
Notation "m ;;; k" := (bind m (fun _ => k))
  (at level 100, right associativity) : py_scope.
Local Open Scope py_scope.

(** ** Collaborators

    Everything [drafts.py] imports from the rest of the server is outside the
    sources at hand.  What those modules decide is gathered in one record,
    shaped after the interfaces the design document lists (section 6):
    the text limits, the stream access resolver, the user directory and the
    recipient deriver.  [set_iter ids] is the order in which Python iterates
    over [set(ids)], and [tick] is how the wall clock moves between two
    readings. *)

Inductive StreamAccess : Type :=
| StreamFound (stream : Stream) (recipient : Recipient) (sub : option Subscription)
| AccessDenied
| NotFound.

Record Collaborators : Type := mkCollaborators
  { MAX_MESSAGE_LENGTH : nat;
    MAX_TOPIC_NAME_LENGTH : nat;
    tick : float -> float;
    set_iter : list Z -> list Z;
    resolve_stream : UserProfile -> Z -> StreamAccess;
    visible_user : Z -> Realm -> option UserProfile;
    derive_recipient : list UserProfile -> UserProfile -> Recipient + list string }.

(** [set(ids)] holds each element of [ids] once. *)
Definition set_semantics (env : Collaborators) : Prop :=
  forall ids, NoDup (set_iter env ids) /\ forall i, In i (set_iter env ids) <-> In i ids.

(** The recipient deriver never reports [msg] as its first message. *)
Definition deriver_never_reports (env : Collaborators) (msg : string) : Prop :=
  forall user_profiles sender messages,
    derive_recipient env user_profiles sender = inr messages ->
    hd_error messages <> Some msg.

Section Drafts.

Variable env : Collaborators.

(** Modelled from the spec: [zerver.lib.message.truncate_body] is not part
    of the sources at hand; it is to "truncate to the platform's maximum
    content length". *)
Definition truncate_body (body : string) : string :=
  prefix (MAX_MESSAGE_LENGTH env) body.

(** Modelled from the spec: [zerver.lib.message.truncate_topic] is not part
    of the sources at hand; it is to "truncate topic to the platform's
    maximum topic length". *)
Definition truncate_topic (topic : string) : string :=
  prefix (MAX_TOPIC_NAME_LENGTH env) topic.

(** [time.time()] *)
Definition time_time : M float :=
  fun w =>
    (Returned (now w),
     {| now := tick env (now w);
        drafts_table := drafts_table w;
        next_id := next_id w;
        calls := calls w ++ [CallTime] |}).

(** Modelled from the spec: [zerver.lib.streams.access_stream_by_id] is not
    part of the sources at hand.  It is to "fail with "Invalid stream id" if
    the stream does not exist or the requester lacks access", over
    [resolve_stream(user, stream_id) -> (stream, recipient) | AccessDenied
    | NotFound]. *)
Definition access_stream_by_id (user_profile : UserProfile) (stream_id : Z)
  : M (Stream * Recipient * option Subscription) :=
  log (CallAccessStream user_profile stream_id) ;;;
  match resolve_stream env user_profile stream_id with
  | StreamFound stream recipient sub => ret (stream, recipient, sub)
  | AccessDenied => raise (JsonableError "Invalid stream id")
  | NotFound => raise (JsonableError "Invalid stream id")
  end.

(** The loop of [get_user_profiles_by_ids] over the IDs in iteration
    order. *)
Fixpoint lookup_user_profiles (user_ids : list Z) (realm : Realm) : M (list UserProfile) :=
  match user_ids with
  | [] => ret []
  | user_id :: rest =>
      match visible_user env user_id realm with
      | None => raise (JsonableError ("Invalid user ID " ++ str user_id)%string)
      | Some user_profile =>
          user_profiles <- lookup_user_profiles rest realm ;;
          ret (user_profile :: user_profiles)
      end
  end.

(** Modelled from the spec: [zerver.lib.addressee.get_user_profiles_by_ids]
    is not part of the sources at hand.  It is to "resolve each ID via the
    external user-directory collaborator; fail with "Invalid user ID <id>"
    (first invalid ID encountered) if any ID does not correspond to a
    visible user". *)
Definition get_user_profiles_by_ids (user_ids : list Z) (realm : Realm) : M (list UserProfile) :=
  log (CallGetUserProfiles user_ids realm) ;;;
  lookup_user_profiles user_ids realm.

(** Modelled from the spec: [zerver.lib.actions.recipient_for_user_profiles]
    is not part of the sources at hand; the design document gives it as
    [derive_recipient(target_users, sender) -> recipient | ValidationError].
    The call site passes [forwarded_mirror_message=False] and
    [forwarder_user_profile=None]. *)
Definition recipient_for_user_profiles (user_profiles : list UserProfile)
           (sender : UserProfile) : M Recipient :=
  log (CallRecipientFor user_profiles sender) ;;;
  match derive_recipient env user_profiles sender with
  | inl recipient => ret recipient
  | inr messages => raise (ValidationError messages)
  end.

(** *** [further_validated_draft_dict] *)

Definition further_validated_draft_dict (draft_dict : DraftDict)
           (user_profile : UserProfile) : M ValidDraftDict :=
  let content := truncate_body (content draft_dict) in
  if contains_nul content
  then raise (JsonableError "Content must not contain null bytes")
  else
    (* the default of [dict.get] is evaluated before the lookup *)
    default <- time_time ;;
    let timestamp :=
      match timestamp draft_dict with
      | Some t => t
      | None => PyFloat default
      end in
    let timestamp := round timestamp 6 in
    if lt_zero timestamp
    then raise (JsonableError "Timestamp must not be negative.")
    else
      let last_edit_time := timestamp_to_datetime timestamp in
      let to := to draft_dict in
      topic_recipient <-
        (if String.eqb (type draft_dict) "stream" then
           let topic := truncate_topic (topic draft_dict) in
           if contains_nul topic
           then raise (JsonableError "Topic must not contain null bytes")
           else if negb (Nat.eqb (List.length to) 1)
           then raise (JsonableError "Must specify exactly 1 stream ID for stream messages")
           else
             match nth_error to 0 with
             | None => raise IndexError
             | Some to_0 =>
                 stream_recipient_sub <- access_stream_by_id user_profile to_0 ;;
                 let '(stream, recipient, sub) := stream_recipient_sub in
                 ret (topic, Some recipient)
             end
         else if String.eqb (type draft_dict) "private"
                 && negb (Nat.eqb (List.length to) 0) then
           to_users <- get_user_profiles_by_ids (set_iter env to) (realm user_profile) ;;
           recipient <-
             try_except_ValidationError
               (recipient_for_user_profiles to_users user_profile)
               (fun messages =>
                  match messages with
                  | messages_0 :: _ => raise (JsonableError messages_0)
                  | [] => raise IndexError
                  end) ;;
           ret ("", Some recipient)
         else ret ("", None)) ;;
      let '(topic, recipient) := topic_recipient in
      ret {| vd_recipient := recipient;
             vd_topic := topic;
             vd_content := content;
             vd_last_edit_time := last_edit_time |}.

(** *** [create_drafts] *)

(** Modelled from the spec: [Draft.objects.bulk_create] belongs to the
    persistence store, "atomic batch insert returning generated
    identifiers".  The store numbers new rows from [next_id] on. *)
Fixpoint assign_ids (first : Z) (objs : list Draft) : list Draft :=
  match objs with
  | [] => []
  | obj :: rest =>
      {| draft_id := Some first;
         draft_user_profile := draft_user_profile obj;
         draft_recipient := draft_recipient obj;
         draft_topic := draft_topic obj;
         draft_content := draft_content obj;
         draft_last_edit_time := draft_last_edit_time obj |}
      :: assign_ids (first + 1) rest
  end.

Definition bulk_create (objs : list Draft) : M (list Draft) :=
  fun w =>
    let created := assign_ids (next_id w) objs in
    (Returned created,
     {| now := now w;
        drafts_table := drafts_table w ++ created;
        next_id := next_id w + Z.of_nat (List.length objs);
        calls := calls w ++ [CallBulkCreate objs] |}).

(** The [for draft_dict in draft_dicts] loop; [draft_objects] is the list
    built so far. *)
Fixpoint collect_draft_objects (user_profile : UserProfile) (draft_dicts : list DraftDict)
         (draft_objects : list Draft) : M (list Draft) :=
  match draft_dicts with
  | [] => ret draft_objects
  | draft_dict :: rest =>
      valid_draft_dict <- further_validated_draft_dict draft_dict user_profile ;;
      collect_draft_objects user_profile rest
        (draft_objects ++
           [ {| draft_id := None;
                draft_user_profile := user_profile;
                draft_recipient := vd_recipient valid_draft_dict;
                draft_topic := vd_topic valid_draft_dict;
                draft_content := vd_content valid_draft_dict;
                draft_last_edit_time := vd_last_edit_time valid_draft_dict |} ])
  end.

Definition create_drafts (user_profile : UserProfile) (draft_dicts : list DraftDict)
  : M HttpResponse :=
  draft_objects <- collect_draft_objects user_profile draft_dicts [] ;;
  created_draft_objects <- bulk_create draft_objects ;;
  let draft_ids := map draft_id created_draft_objects in
  ret (json_success draft_ids).

(** *** A batch, one descriptor after the other *)

(** [normalizes user w ds vs w']: starting in [w], every descriptor of [ds]
    normalises, one after the other, to the records [vs], and leaves the
    world [w']. *)
Inductive normalizes (user_profile : UserProfile)
  : World -> list DraftDict -> list ValidDraftDict -> World -> Prop :=
| normalizes_nil w : normalizes user_profile w [] [] w
| normalizes_cons w d v w1 ds vs w2 :
    further_validated_draft_dict d user_profile w = (Returned v, w1) ->
    normalizes user_profile w1 ds vs w2 ->
    normalizes user_profile w (d :: ds) (v :: vs) w2.

(** The [Draft(...)] built from a normalised record. *)
Definition draft_of (user_profile : UserProfile) (v : ValidDraftDict) : Draft :=
  {| draft_id := None;
     draft_user_profile := user_profile;
     draft_recipient := vd_recipient v;
     draft_topic := vd_topic v;
     draft_content := vd_content v;
     draft_last_edit_time := vd_last_edit_time v |}.

(** The identifiers the store hands out: [n] of them, from [first] on. *)
Fixpoint ids_from (first : Z) (n : nat) : list Z :=
  match n with
  | O => []
  | S n' => first :: ids_from (first + 1) n'
  end.

(** *** Names for the points a run goes through *)

(** The world after [time.time()] was read once. *)
Definition clock_read (w : World) : World := snd (time_time w).

(** The world after one more call was logged. *)
Definition logged (c : Call) (w : World) : World := snd (log c w).

(** [round(draft_dict.get("timestamp", time.time()), 6)] in world [w]. *)
Definition rounded_timestamp (draft_dict : DraftDict) (w : World) : Number :=
  round (match timestamp draft_dict with
         | Some t => t
         | None => PyFloat (now w)
         end) 6.

(** The user directory does not know [user_id]. *)
Definition invalid_user (realm : Realm) (user_id : Z) : bool :=
  match visible_user env user_id realm with
  | None => true
  | Some _ => false
  end.

(** The profiles of the IDs the user directory knows, in the order of the
    IDs. *)
Definition known_profiles (realm : Realm) (user_ids : list Z) : list UserProfile :=
  flat_map (fun user_id =>
              match visible_user env user_id realm with
              | Some user_profile => [user_profile]
              | None => []
              end) user_ids.

End Drafts.

(** The same descriptor with another topic, and with another [to] list. *)
Definition with_topic (draft_dict : DraftDict) (new_topic : string) : DraftDict :=
  {| type := type draft_dict;
     to := to draft_dict;
     topic := new_topic;
     content := content draft_dict;
     timestamp := timestamp draft_dict |}.

Definition with_to (draft_dict : DraftDict) (new_to : list Z) : DraftDict :=
  {| type := type draft_dict;
     to := new_to;
     topic := topic draft_dict;
     content := content draft_dict;
     timestamp := timestamp draft_dict |}.

(** The timestamp a point in time was made from. *)
Definition timestamp_of (t : datetime) : Number :=
  match t with
  | utc_from_timestamp timestamp => timestamp
  end.

(** What the checks of the normaliser leave true of a draft: no null byte in
    its content or its topic, and a last edit time that is not below zero. *)
Definition draft_invariant (o : Draft) : bool :=
  negb (contains_nul (draft_content o))
  && negb (contains_nul (draft_topic o))
  && negb (lt_zero (timestamp_of (draft_last_edit_time o))).

(** The identifiers a response lists. *)
Definition response_ids (r : HttpResponse) : list (option Z) :=
  match r with
  | json_success ids => ids
  end.

Arguments round : simpl never.
Arguments lt_zero : simpl never.
Arguments prefix : simpl nomatch.
Arguments str : simpl never.

(** ** A concrete server

    A small directory in the image of the test fixtures: stream 1 is visible
    to everybody, stream 2 is invite-only, users 7 ("ZOE") and 8 ("othello")
    exist in every realm, and nothing else exists. *)

Module Demo.

Definition env : Collaborators :=
  {| MAX_MESSAGE_LENGTH := 40;
     MAX_TOPIC_NAME_LENGTH := 10;
     tick := fun t => (t + 1)%float;
     set_iter := nodup Z.eq_dec;
     resolve_stream := fun _ stream_id =>
       if stream_id =? 1 then StreamFound (mkStream 1) (mkRecipient 101) None
       else if stream_id =? 2 then AccessDenied
       else NotFound;
     visible_user := fun user_id realm =>
       if (user_id =? 7) || (user_id =? 8)
       then Some (mkUserProfile user_id realm) else None;
     derive_recipient := fun user_profiles sender =>
       match user_profiles with
       | [] => inr ["Message must have recipients"]
       | u :: _ => inl (mkRecipient (200 + Z.of_nat (List.length user_profiles)))
       end |}.

Definition hamlet : UserProfile := mkUserProfile 10 1.

Definition world : World :=
  {| now := 1595479019.5%float;
     drafts_table := [];
     next_id := 1;
     calls := [] |}.

Definition nul_string : string := String "a" (String NUL "b").

(** The descriptors of the test suite, and a few more. *)

Definition stream_draft : DraftDict :=
  {| type := "stream";
     to := [1];
     topic := "sync drafts";
     content := "Let's add backend support.";
     timestamp := Some (PyFloat 1595479019.4391587) |}.

Definition private_draft : DraftDict :=
  {| type := "private";
     to := [7; 8; 7];
     topic := "This topic should be ignored.";
     content := "What if we made it possible?";
     timestamp := Some (PyInt 1595479019) |}.

Definition untyped_draft : DraftDict :=
  {| type := "";
     to := [99];
     topic := nul_string;
     content := "Let's add backend support.";
     timestamp := None |}.

Definition empty_private_draft : DraftDict :=
  {| type := "private";
     to := [];
     topic := "sync drafts";
     content := "Let's add backend support.";
     timestamp := Some (PyFloat 1595479019.43915) |}.

Definition invalid_timestamp_draft : DraftDict :=
  {| type := "stream";
     to := [];
     topic := "sync drafts";
     content := "Let's add backend support.";
     timestamp := Some (PyFloat (-10.10)) |}.

Definition nul_topic_draft : DraftDict :=
  {| type := "stream";
     to := [1; 2];
     topic := nul_string;
     content := "Let's add backend support.";
     timestamp := Some (PyFloat 1595479019.439159) |}.

Definition unknown_user_draft : DraftDict :=
  {| type := "private";
     to := [7; 99999999999999];
     topic := "This topic should be ignored.";
     content := "What if we made it possible?";
     timestamp := Some (PyFloat 1595479019.43915) |}.

(** A timestamp below zero that rounds to (negative) zero. *)
Definition tiny_negative_draft : DraftDict :=
  {| type := "";
     to := [];
     topic := "";
     content := "hi";
     timestamp := Some (PyFloat (-0.0000001)) |}.

(** A null byte in the content of a stream draft whose topic has one too. *)
Definition nul_content_stream_draft : DraftDict :=
  {| type := "stream";
     to := [1];
     topic := nul_string;
     content := nul_string;
     timestamp := Some (PyInt 1595479019) |}.

(** A null byte in the content of a private draft to an unknown user. *)
Definition nul_content_private_draft : DraftDict :=
  {| type := "private";
     to := [99999999999999];
     topic := "";
     content := nul_string;
     timestamp := Some (PyInt 1595479019) |}.

(** A null byte beyond the maximum content length. *)
Definition late_nul_draft : DraftDict :=
  {| type := "";
     to := [];
     topic := "";
     content := ("0123456789012345678901234567890123456789" ++ nul_string)%string;
     timestamp := Some (PyInt 1595479019) |}.

End Demo.

(** * Properties *)

(** ** Rounding *)

(** [round_half_even] returns an integer nearest to the quotient. *)
Lemma round_half_even_nearest (num den : Z) :
  0 < den ->
  2 * Z.abs (num - round_half_even num den * den) <= den.
Proof.
  intros Hden. unfold round_half_even.
  pose proof (Z.div_mod num den ltac:(lia)) as Hdm.
  pose proof (Z.mod_pos_bound num den Hden) as Hm.
  destruct (Z.compare_spec (2 * (num mod den)) den) as [Heq | Hlt | Hgt];
    [destruct (Z.even (num / den)) |..]; nia.
Qed.

(** On a tie the even neighbour is taken. *)
Lemma round_half_even_tie (num den : Z) :
  0 < den ->
  2 * (num mod den) = den ->
  Z.even (round_half_even num den) = true.
Proof.
  intros Hden Htie. unfold round_half_even. rewrite Htie, Z.compare_refl.
  destruct (Z.even (num / den)) eqn:He; [exact He |].
  rewrite Z.even_add, He. reflexivity.
Qed.

(** An [int] is its own rounding, and a negative one stays below zero. *)
Lemma round_int_negative (z : Z) : z < 0 -> lt_zero (round (PyInt z) 6) = true.
Proof. intros Hz. unfold round, lt_zero. now apply Z.ltb_lt. Qed.

(** ** What a computation may touch *)

Section Quiet.

Variable P : Call -> bool.

Lemma quiet_ret {A} (a : A) : quiet P (ret a).
Proof.
  intros w o w' H. injection H as _ <-.
  repeat split. exists []. now rewrite app_nil_r.
Qed.

Lemma quiet_raise {A} (e : Exn) : quiet P (@raise A e).
Proof.
  intros w o w' H. injection H as _ <-.
  repeat split. exists []. now rewrite app_nil_r.
Qed.

Lemma quiet_log (c : Call) : P c = true -> quiet P (log c).
Proof.
  intros Hc w o w' H. injection H as _ <-. cbn.
  repeat split. exists [c]. cbn. now rewrite Hc.
Qed.

Lemma quiet_bind {A B} (m : M A) (k : A -> M B) :
  quiet P m -> (forall a, quiet P (k a)) -> quiet P (bind m k).
Proof.
  intros Hm Hk w o w' H. unfold bind in H.
  destruct (m w) as [[a | e] w1] eqn:Em.
  - destruct (Hm _ _ _ Em) as (Ht & Hn & x1 & Hc1 & Hp1).
    destruct (Hk a _ _ _ H) as (Ht' & Hn' & x2 & Hc2 & Hp2).
    repeat split; try congruence.
    exists (x1 ++ x2). rewrite Hc2, Hc1, app_assoc. split; [reflexivity |].
    now rewrite forallb_app, Hp1, Hp2.
  - injection H as <- <-. exact (Hm _ _ _ Em).
Qed.

Lemma quiet_try {A} (m : M A) (handler : list string -> M A) :
  quiet P m -> (forall messages, quiet P (handler messages)) ->
  quiet P (try_except_ValidationError m handler).
Proof.
  intros Hm Hh w o w' H. unfold try_except_ValidationError in H.
  destruct (m w) as [[a | e] w1] eqn:Em.
  - injection H as <- <-. exact (Hm _ _ _ Em).
  - destruct (Hm _ _ _ Em) as (Ht & Hn & x1 & Hc1 & Hp1).
    destruct e as [msg | messages |];
      try (injection H as <- <-; repeat split; trivial; now exists x1).
    destruct (Hh messages _ _ _ H) as (Ht' & Hn' & x2 & Hc2 & Hp2).
    repeat split; try congruence.
    exists (x1 ++ x2). rewrite Hc2, Hc1, app_assoc. split; [reflexivity |].
    now rewrite forallb_app, Hp1, Hp2.
Qed.

End Quiet.

Create HintDb quiet.
#[local] Hint Resolve quiet_ret quiet_raise quiet_bind quiet_try quiet_log : quiet.

Section DraftsFacts.

Variable env : Collaborators.

Lemma quiet_time_time : quiet not_bulk_create (time_time env).
Proof.
  intros w o w' H. injection H as _ <-. cbn.
  repeat split. now exists [CallTime].
Qed.

Lemma quiet_lookup_user_profiles user_ids realm :
  quiet not_bulk_create (lookup_user_profiles env user_ids realm).
Proof.
  induction user_ids as [| user_id rest IH]; cbn.
  - auto with quiet.
  - destruct (visible_user env user_id realm); auto with quiet.
Qed.

Lemma quiet_access_stream_by_id user_profile stream_id :
  quiet not_bulk_create (access_stream_by_id env user_profile stream_id).
Proof.
  unfold access_stream_by_id. apply quiet_bind; [now apply quiet_log |].
  intros _. destruct (resolve_stream env user_profile stream_id); auto with quiet.
Qed.

Lemma quiet_get_user_profiles_by_ids user_ids realm :
  quiet not_bulk_create (get_user_profiles_by_ids env user_ids realm).
Proof.
  unfold get_user_profiles_by_ids. apply quiet_bind; [now apply quiet_log |].
  intros _. apply quiet_lookup_user_profiles.
Qed.

Lemma quiet_recipient_for_user_profiles user_profiles sender :
  quiet not_bulk_create (recipient_for_user_profiles env user_profiles sender).
Proof.
  unfold recipient_for_user_profiles. apply quiet_bind; [now apply quiet_log |].
  intros _. destruct (derive_recipient env user_profiles sender); auto with quiet.
Qed.

#[local] Hint Resolve quiet_time_time quiet_access_stream_by_id
  quiet_get_user_profiles_by_ids quiet_recipient_for_user_profiles : quiet.

(** Normalising a descriptor never writes to the drafts table. *)
Lemma quiet_further_validated_draft_dict draft_dict user_profile :
  quiet not_bulk_create (further_validated_draft_dict env draft_dict user_profile).
Proof.
  unfold further_validated_draft_dict.
  destruct (contains_nul _); [auto with quiet |].
  apply quiet_bind; [auto with quiet |]. intros default.
  destruct (lt_zero _); [auto with quiet |].
  apply quiet_bind.
  - destruct (String.eqb (type draft_dict) "stream").
    + destruct (contains_nul _); [auto with quiet |].
      destruct (negb _); [auto with quiet |].
      destruct (nth_error _ _); [| auto with quiet].
      apply quiet_bind; [auto with quiet |].
      intros [[stream recipient] sub]. auto with quiet.
    + destruct (_ && _); [| auto with quiet].
      apply quiet_bind; [auto with quiet |]. intros to_users.
      apply quiet_bind; [| auto with quiet].
      apply quiet_try; [auto with quiet |].
      intros [| messages_0 rest]; auto with quiet.
  - intros [topic recipient]. auto with quiet.
Qed.

(** *** Normalising a batch in input order *)

Lemma normalizes_length user_profile w ds vs w' :
  normalizes env user_profile w ds vs w' -> List.length vs = List.length ds.
Proof. induction 1; cbn; congruence. Qed.

Lemma normalizes_quiet user_profile w ds vs w' :
  normalizes env user_profile w ds vs w' ->
  drafts_table w' = drafts_table w /\
  next_id w' = next_id w /\
  exists extra, calls w' = calls w ++ extra /\ forallb not_bulk_create extra = true.
Proof.
  induction 1 as [w | w d v w1 ds vs w2 Hd _ (Ht & Hn & x2 & Hc2 & Hp2)].
  - repeat split. exists []. now rewrite app_nil_r.
  - destruct (quiet_further_validated_draft_dict _ _ _ _ _ Hd) as (Ht1 & Hn1 & x1 & Hc1 & Hp1).
    repeat split; try congruence.
    exists (x1 ++ x2). rewrite Hc2, Hc1, app_assoc. split; [reflexivity |].
    now rewrite forallb_app, Hp1, Hp2.
Qed.

Lemma normalizes_content user_profile w ds vs w' :
  normalizes env user_profile w ds vs w' ->
  map vd_content vs = map (fun d => truncate_body env (content d)) ds.
Proof.
  induction 1 as [w | w d v w1 ds vs w2 Hd _ IH]; [reflexivity |].
  cbn. f_equal; [| exact IH].
  revert Hd. unfold further_validated_draft_dict, bind.
  destruct (contains_nul _); [discriminate |].
  destruct (time_time env w) as [[default | e] w0]; [| discriminate].
  destruct (lt_zero _); [discriminate |].
  match goal with |- context [match ?m w0 with _ => _ end] => destruct (m w0) as [[[t r] | e] w3] end;
    [| discriminate].
  intros [= <- _]. reflexivity.
Qed.

(** The loop returns the drafts of the normalised records, after those it
    started with. *)
Lemma collect_normalizes user_profile w ds vs w' :
  normalizes env user_profile w ds vs w' ->
  forall draft_objects,
    collect_draft_objects env user_profile ds draft_objects w
    = (Returned (draft_objects ++ map (draft_of user_profile) vs), w').
Proof.
  induction 1 as [w | w d v w1 ds vs w2 Hd _ IH]; intros draft_objects; cbn.
  - now rewrite app_nil_r.
  - unfold bind. rewrite Hd. rewrite IH, <- app_assoc. reflexivity.
Qed.

(** The loop stops at the first descriptor that raises. *)
Lemma collect_first_error user_profile w pre vs w1 d e w2 post :
  normalizes env user_profile w pre vs w1 ->
  further_validated_draft_dict env d user_profile w1 = (Raised e, w2) ->
  forall draft_objects,
    collect_draft_objects env user_profile (pre ++ d :: post) draft_objects w
    = (Raised e, w2).
Proof.
  induction 1 as [w | w d0 v w1 ds vs w3 Hd _ IH]; intros Hf draft_objects; cbn.
  - unfold bind. now rewrite Hf.
  - unfold bind. rewrite Hd. now apply IH.
Qed.

(** Every batch either normalises entirely or has a first descriptor that
    raises. *)
Lemma batch_normalizes_or_fails user_profile ds : forall w,
  (exists vs w', normalizes env user_profile w ds vs w') \/
  (exists pre d post vs w1 e w2,
      ds = pre ++ d :: post /\
      normalizes env user_profile w pre vs w1 /\
      further_validated_draft_dict env d user_profile w1 = (Raised e, w2)).
Proof.
  induction ds as [| d ds IH]; intros w.
  - left. exists [], w. constructor.
  - destruct (further_validated_draft_dict env d user_profile w) as [[v | e] w1] eqn:Hd.
    + destruct (IH w1) as [(vs & w' & Hn) | (pre & d' & post & vs & w2 & e & w3 & -> & Hn & Hf)].
      * left. exists (v :: vs), w'. econstructor; eassumption.
      * right. exists (d :: pre), d', post, (v :: vs), w2, e, w3.
        repeat split; trivial. econstructor; eassumption.
    + right. exists [], d, ds, [], w, e, w1. repeat split; trivial. constructor.
Qed.

(** *** The identifiers handed out by the store *)

Lemma assign_ids_ids objs : forall first,
  map draft_id (assign_ids first objs) = map Some (ids_from first (List.length objs)).
Proof. induction objs as [| o objs IH]; intros first; cbn; [| rewrite IH]; reflexivity. Qed.

Lemma assign_ids_length objs : forall first,
  List.length (assign_ids first objs) = List.length objs.
Proof. induction objs as [| o objs IH]; intros first; cbn; [| rewrite IH]; reflexivity. Qed.

Lemma assign_ids_owner (user_profile : UserProfile) objs : forall first,
  Forall (fun o => draft_user_profile o = user_profile) objs ->
  Forall (fun o => draft_user_profile o = user_profile) (assign_ids first objs).
Proof.
  induction objs as [| o objs IH]; intros first H; cbn; [constructor |].
  inversion H; subst. constructor; [reflexivity | now apply IH].
Qed.

Lemma assign_ids_content objs : forall first,
  map draft_content (assign_ids first objs) = map draft_content objs.
Proof. induction objs as [| o objs IH]; intros first; cbn; [| rewrite IH]; reflexivity. Qed.

Lemma ids_from_lower n : forall first i, In i (ids_from first n) -> first <= i.
Proof.
  induction n as [| n IH]; intros first i; cbn; [tauto |].
  intros [<- | H]; [lia |]. apply IH in H. lia.
Qed.

Lemma ids_from_NoDup n : forall first, NoDup (ids_from first n).
Proof.
  induction n as [| n IH]; intros first; cbn; constructor; [| apply IH].
  intros H. apply ids_from_lower in H. lia.
Qed.

Lemma NoDup_map_Some (l : list Z) : NoDup l -> NoDup (map Some l).
Proof.
  induction 1 as [| i l Hi _ IH]; cbn; constructor; [| exact IH].
  intros H. apply in_map_iff in H. destruct H as (j & [= ->] & Hj). contradiction.
Qed.

End DraftsFacts.

(** ** The batch endpoint *)

Section Batch.

Variable env : Collaborators.
Variable user_profile : UserProfile.

(** C1. When the descriptors before [d] normalise and [d] raises [e], the
    request raises [e], the error of the first failing descriptor in input
    order, whatever follows [d]; nothing is persisted: the drafts table
    and the identifier sequence are as before the request and the store
    was never asked to create anything. *)
Theorem create_drafts_first_error_persists_nothing
        (pre post : list DraftDict) (d : DraftDict) (vs : list ValidDraftDict)
        (e : Exn) (w w1 w2 : World) :
  normalizes env user_profile w pre vs w1 ->
  further_validated_draft_dict env d user_profile w1 = (Raised e, w2) ->
  create_drafts env user_profile (pre ++ d :: post) w = (Raised e, w2) /\
  drafts_table w2 = drafts_table w /\
  next_id w2 = next_id w /\
  exists extra, calls w2 = calls w ++ extra /\ forallb not_bulk_create extra = true.
Proof.
  intros Hpre Hd. split.
  - unfold create_drafts, bind.
    now rewrite (collect_first_error env user_profile w pre vs w1 d e w2 post Hpre Hd []).
  - destruct (normalizes_quiet env _ _ _ _ _ Hpre) as (Ht & Hn & x1 & Hc1 & Hp1).
    destruct (quiet_further_validated_draft_dict env _ _ _ _ _ Hd) as (Ht2 & Hn2 & x2 & Hc2 & Hp2).
    repeat split; try congruence.
    exists (x1 ++ x2). rewrite Hc2, Hc1, app_assoc. split; [reflexivity |].
    now rewrite forallb_app, Hp1, Hp2.
Qed.

(** C2. When all [N] descriptors of a batch normalise, the request
    succeeds; the store is written once, with one batch of [N] drafts that
    is appended to the table; each of them is owned by the requesting
    user and carries, in input order, the content of its descriptor; the
    response lists their [N] identifiers, pairwise distinct, in that same
    order. *)
Theorem create_drafts_persists_whole_batch
        (ds : list DraftDict) (vs : list ValidDraftDict) (w w1 : World) :
  normalizes env user_profile w ds vs w1 ->
  exists (created : list Draft) (w2 : World) (extra : list Call),
    create_drafts env user_profile ds w
    = (Returned (json_success (map draft_id created)), w2) /\
    drafts_table w2 = drafts_table w ++ created /\
    List.length created = List.length ds /\
    Forall (fun o => draft_user_profile o = user_profile) created /\
    map draft_id created = map Some (ids_from (next_id w) (List.length ds)) /\
    NoDup (map draft_id created) /\
    map draft_content created = map (fun d => truncate_body env (content d)) ds /\
    calls w2 = calls w ++ extra ++ [CallBulkCreate (map (draft_of user_profile) vs)] /\
    forallb not_bulk_create extra = true.
Proof.
  intros Hn.
  destruct (normalizes_quiet env _ _ _ _ _ Hn) as (Ht & Hi & extra & Hc & Hp).
  pose proof (normalizes_length env _ _ _ _ _ Hn) as Hlen.
  set (objs := map (draft_of user_profile) vs).
  assert (Hobjs : List.length objs = List.length ds)
    by (unfold objs; now rewrite length_map).
  exists (assign_ids (next_id w1) objs).
  eexists. exists extra.
  split.
  { unfold create_drafts, bind.
    rewrite (collect_normalizes env user_profile w ds vs w1 Hn []). cbn. reflexivity. }
  cbn. rewrite Ht, Hi, Hc, <- app_assoc.
  repeat split.
  - rewrite assign_ids_length. exact Hobjs.
  - apply assign_ids_owner. unfold objs. apply Forall_forall.
    intros o Ho. apply in_map_iff in Ho. destruct Ho as (v & <- & _). reflexivity.
  - rewrite assign_ids_ids. now rewrite Hobjs.
  - rewrite assign_ids_ids. apply NoDup_map_Some, ids_from_NoDup.
  - rewrite assign_ids_content. unfold objs. rewrite map_map. cbn.
    exact (normalizes_content env _ _ _ _ _ Hn).
  - exact Hp.
Qed.

End Batch.

(** ** Normalising one descriptor *)

Section Normaliser.

Variable env : Collaborators.
Variable user_profile : UserProfile.

Ltac run :=
  unfold further_validated_draft_dict, bind, rounded_timestamp, clock_read, logged in *;
  cbn [time_time log fst snd now calls drafts_table next_id] in *.

(** *** The three ways through the recipient step *)

Lemma lookup_user_profiles_run (realm : Realm) (user_ids : list Z) (w : World) :
  lookup_user_profiles env user_ids realm w =
  match find (invalid_user env realm) user_ids with
  | Some user_id => (Raised (JsonableError ("Invalid user ID " ++ str user_id)%string), w)
  | None => (Returned (known_profiles env realm user_ids), w)
  end.
Proof.
  induction user_ids as [| user_id rest IH]; [reflexivity |].
  cbn [lookup_user_profiles find known_profiles flat_map]. unfold invalid_user at 1.
  destruct (visible_user env user_id realm) as [p |]; [| reflexivity].
  unfold bind. rewrite IH.
  destruct (find _ rest); reflexivity.
Qed.

Lemma stream_run (d : DraftDict) (w : World) :
  String.eqb (type d) "stream" = true ->
  contains_nul (truncate_body env (content d)) = false ->
  lt_zero (rounded_timestamp d w) = false ->
  further_validated_draft_dict env d user_profile w =
  if contains_nul (truncate_topic env (topic d))
  then (Raised (JsonableError "Topic must not contain null bytes"), clock_read env w)
  else
    match to d with
    | [to_0] =>
        let w1 := logged (CallAccessStream user_profile to_0) (clock_read env w) in
        match resolve_stream env user_profile to_0 with
        | StreamFound _ recipient _ =>
            (Returned {| vd_recipient := Some recipient;
                         vd_topic := truncate_topic env (topic d);
                         vd_content := truncate_body env (content d);
                         vd_last_edit_time := timestamp_to_datetime (rounded_timestamp d w) |},
             w1)
        | AccessDenied => (Raised (JsonableError "Invalid stream id"), w1)
        | NotFound => (Raised (JsonableError "Invalid stream id"), w1)
        end
    | _ => (Raised (JsonableError "Must specify exactly 1 stream ID for stream messages"),
            clock_read env w)
    end.
Proof.
  intros Hs Hc Ht. run. rewrite Hc. cbn. rewrite Ht, Hs.
  destruct (contains_nul (truncate_topic env (topic d))); [reflexivity |].
  destruct (to d) as [| to_0 [| to_1 rest]]; try reflexivity.
  cbn. unfold access_stream_by_id, bind. cbn.
  destruct (resolve_stream env user_profile to_0); reflexivity.
Qed.

Lemma private_run (d : DraftDict) (w : World) :
  String.eqb (type d) "stream" = false ->
  String.eqb (type d) "private" && negb (Nat.eqb (List.length (to d)) 0) = true ->
  contains_nul (truncate_body env (content d)) = false ->
  lt_zero (rounded_timestamp d w) = false ->
  further_validated_draft_dict env d user_profile w =
  let user_ids := set_iter env (to d) in
  let w1 := logged (CallGetUserProfiles user_ids (realm user_profile)) (clock_read env w) in
  match find (invalid_user env (realm user_profile)) user_ids with
  | Some user_id => (Raised (JsonableError ("Invalid user ID " ++ str user_id)%string), w1)
  | None =>
      let to_users := known_profiles env (realm user_profile) user_ids in
      let w2 := logged (CallRecipientFor to_users user_profile) w1 in
      match derive_recipient env to_users user_profile with
      | inl recipient =>
          (Returned {| vd_recipient := Some recipient;
                       vd_topic := "";
                       vd_content := truncate_body env (content d);
                       vd_last_edit_time := timestamp_to_datetime (rounded_timestamp d w) |},
           w2)
      | inr (messages_0 :: _) => (Raised (JsonableError messages_0), w2)
      | inr [] => (Raised IndexError, w2)
      end
  end.
Proof.
  intros Hs Hp Hc Ht. run. rewrite Hc. cbn. rewrite Ht, Hs, Hp.
  unfold get_user_profiles_by_ids, bind. cbn.
  rewrite lookup_user_profiles_run.
  destruct (find _ _); [reflexivity |].
  unfold try_except_ValidationError, recipient_for_user_profiles, bind. cbn.
  destruct (derive_recipient env _ user_profile) as [r | [| m ms]]; reflexivity.
Qed.

Lemma plain_run (d : DraftDict) (w : World) :
  String.eqb (type d) "stream" = false ->
  String.eqb (type d) "private" && negb (Nat.eqb (List.length (to d)) 0) = false ->
  contains_nul (truncate_body env (content d)) = false ->
  lt_zero (rounded_timestamp d w) = false ->
  further_validated_draft_dict env d user_profile w =
  (Returned {| vd_recipient := None;
               vd_topic := "";
               vd_content := truncate_body env (content d);
               vd_last_edit_time := timestamp_to_datetime (rounded_timestamp d w) |},
   clock_read env w).
Proof.
  intros Hs Hp Hc Ht. run. rewrite Hc. cbn. now rewrite Ht, Hs, Hp.
Qed.

Lemma content_run (d : DraftDict) (w : World) :
  contains_nul (truncate_body env (content d)) = true ->
  further_validated_draft_dict env d user_profile w =
  (Raised (JsonableError "Content must not contain null bytes"), w).
Proof. intros Hc. run. now rewrite Hc. Qed.

Lemma timestamp_run (d : DraftDict) (w : World) :
  contains_nul (truncate_body env (content d)) = false ->
  lt_zero (rounded_timestamp d w) = true ->
  further_validated_draft_dict env d user_profile w =
  (Raised (JsonableError "Timestamp must not be negative."), clock_read env w).
Proof. intros Hc Ht. run. rewrite Hc. cbn. now rewrite Ht. Qed.

(** Whatever a successful run returns went through the content and the
    timestamp checks. *)
Lemma returned_inv (d : DraftDict) (w w' : World) (v : ValidDraftDict) :
  further_validated_draft_dict env d user_profile w = (Returned v, w') ->
  contains_nul (truncate_body env (content d)) = false /\
  lt_zero (rounded_timestamp d w) = false /\
  vd_content v = truncate_body env (content d) /\
  vd_last_edit_time v = timestamp_to_datetime (rounded_timestamp d w).
Proof.
  destruct (contains_nul (truncate_body env (content d))) eqn:Hc;
    [rewrite content_run by assumption; discriminate |].
  destruct (lt_zero (rounded_timestamp d w)) eqn:Ht;
    [rewrite timestamp_run by assumption; discriminate |].
  destruct (String.eqb (type d) "stream") eqn:Hs.
  - rewrite stream_run by assumption.
    destruct (contains_nul (truncate_topic env (topic d))); [discriminate |].
    destruct (to d) as [| to_0 [| to_1 rest]]; try discriminate.
    cbn zeta. destruct (resolve_stream env user_profile to_0); try discriminate.
    intros [= <- _]. cbn. auto.
  - destruct (String.eqb (type d) "private" && negb (Nat.eqb (List.length (to d)) 0)) eqn:Hp.
    + rewrite private_run by assumption. cbn zeta.
      destruct (find _ _); [discriminate |].
      destruct (derive_recipient env _ user_profile) as [r | [| m ms]]; try discriminate.
      intros [= <- _]. cbn. auto.
    + rewrite plain_run by assumption. intros [= <- _]. cbn. auto.
Qed.

(** A descriptor that takes neither the stream nor the private branch. *)
Lemma untargeted_run (d : DraftDict) (w : World) :
  String.eqb (type d) "stream" = false ->
  String.eqb (type d) "private" && negb (Nat.eqb (List.length (to d)) 0) = false ->
  (forall v w', further_validated_draft_dict env d user_profile w = (Returned v, w') ->
                vd_recipient v = None /\ vd_topic v = "") /\
  (forall o w', further_validated_draft_dict env d user_profile w = (o, w') ->
                exists extra, calls w' = calls w ++ extra /\
                              forallb (fun c => negb (is_resolution_call c)) extra = true).
Proof.
  intros Hs Hp.
  destruct (contains_nul (truncate_body env (content d))) eqn:Hc.
  { rewrite content_run by assumption. split; [discriminate |].
    intros o w' [= <- <-]. exists []. now rewrite app_nil_r. }
  destruct (lt_zero (rounded_timestamp d w)) eqn:Ht.
  { rewrite timestamp_run by assumption. split; [discriminate |].
    intros o w' [= <- <-]. now exists [CallTime]. }
  rewrite plain_run by assumption. split.
  - intros v w' [= <- <-]. now split.
  - intros o w' [= <- <-]. now exists [CallTime].
Qed.

Lemma with_to_run (d : DraftDict) (new_to : list Z) (w : World) :
  String.eqb (type d) "stream" = false ->
  String.eqb (type d) "private" = false ->
  further_validated_draft_dict env (with_to d new_to) user_profile w
  = further_validated_draft_dict env d user_profile w.
Proof.
  intros Hs Hp. unfold further_validated_draft_dict.
  cbn [with_to type to topic content timestamp]. now rewrite Hs, Hp.
Qed.

Lemma with_topic_run (d : DraftDict) (new_topic : string) (w : World) :
  String.eqb (type d) "stream" = false ->
  further_validated_draft_dict env (with_topic d new_topic) user_profile w
  = further_validated_draft_dict env d user_profile w.
Proof.
  intros Hs. unfold further_validated_draft_dict.
  cbn [with_topic type to topic content timestamp]. now rewrite Hs.
Qed.

(** C8. A descriptor of type [""], or of type ["private"] with an empty
    [to] list, is normalised without any recipient resolution: the log
    gains no call to the stream resolver, the user directory or the
    recipient deriver; a record it returns has a null recipient and an
    empty topic; and it does return that record once the content and the
    timestamp checks pass. *)
Theorem no_recipient_without_target (d : DraftDict) (w : World) :
  type d = "" \/ (type d = "private" /\ to d = []) ->
  (forall v w', further_validated_draft_dict env d user_profile w = (Returned v, w') ->
                vd_recipient v = None /\ vd_topic v = "") /\
  (forall o w', further_validated_draft_dict env d user_profile w = (o, w') ->
                exists extra, calls w' = calls w ++ extra /\
                              forallb (fun c => negb (is_resolution_call c)) extra = true) /\
  (contains_nul (truncate_body env (content d)) = false ->
   lt_zero (rounded_timestamp d w) = false ->
   further_validated_draft_dict env d user_profile w
   = (Returned {| vd_recipient := None;
                  vd_topic := "";
                  vd_content := truncate_body env (content d);
                  vd_last_edit_time := timestamp_to_datetime (rounded_timestamp d w) |},
      clock_read env w)).
Proof.
  intros Hty.
  assert (Hbranch : String.eqb (type d) "stream" = false /\
                    String.eqb (type d) "private" && negb (Nat.eqb (List.length (to d)) 0) = false).
  { destruct Hty as [-> | [-> ->]]; split; reflexivity. }
  destruct Hbranch as [Hs Hp].
  destruct (untargeted_run d w Hs Hp) as [Hrec Hcalls].
  split; [exact Hrec | split; [exact Hcalls |]].
  intros Hc Ht. now apply plain_run.
Qed.

(** C9. Outside the stream branch the input topic is never looked at:
    replacing it by any other string, with or without a null byte, changes
    neither the outcome nor the world; a record that is returned has the
    empty topic; and, the recipient deriver not speaking of topics, the
    topic error is never raised. *)
Theorem topic_ignored_outside_stream (d : DraftDict) :
  type d <> "stream" ->
  (forall new_topic w,
      further_validated_draft_dict env (with_topic d new_topic) user_profile w
      = further_validated_draft_dict env d user_profile w) /\
  (forall new_topic v w w',
      further_validated_draft_dict env (with_topic d new_topic) user_profile w = (Returned v, w') ->
      vd_topic v = "") /\
  (deriver_never_reports env "Topic must not contain null bytes" ->
   forall new_topic w w',
     further_validated_draft_dict env (with_topic d new_topic) user_profile w
     <> (Raised (JsonableError "Topic must not contain null bytes"), w')).
Proof.
  intros Hty. apply String.eqb_neq in Hty.
  split; [| split].
  - intros new_topic w. now apply with_topic_run.
  - intros new_topic v w w'. rewrite with_topic_run by assumption. intros Hrun.
    destruct (returned_inv _ _ _ _ Hrun) as (Hc & Ht & _).
    destruct (String.eqb (type d) "private" && negb (Nat.eqb (List.length (to d)) 0)) eqn:Hp.
    + rewrite private_run in Hrun by assumption. cbn zeta in Hrun.
      destruct (find _ _); [discriminate |].
      destruct (derive_recipient env _ user_profile) as [r | [| m ms]]; try discriminate.
      now injection Hrun as <- _.
    + rewrite plain_run in Hrun by assumption. now injection Hrun as <- _.
  - intros Hder new_topic w w'. rewrite with_topic_run by assumption.
    destruct (contains_nul (truncate_body env (content d))) eqn:Hc;
      [rewrite content_run by assumption; discriminate |].
    destruct (lt_zero (rounded_timestamp d w)) eqn:Ht;
      [rewrite timestamp_run by assumption; discriminate |].
    destruct (String.eqb (type d) "private" && negb (Nat.eqb (List.length (to d)) 0)) eqn:Hp.
    + rewrite private_run by assumption. cbn zeta.
      destruct (find _ _); [cbn; discriminate |].
      destruct (derive_recipient env _ user_profile) as [r | [| m ms]] eqn:Hd; try discriminate.
      intros [= -> _]. now apply (Hder _ _ _ Hd).
    + rewrite plain_run by assumption. discriminate.
Qed.

(** C10. With type [""] the [to] list plays no part: the run on the
    descriptor is the run on the same descriptor with an empty [to] list,
    outcome and world alike; no ID is looked up, nor is any other
    recipient resolution call made; a record that is returned has a null
    recipient and an empty topic. *)
Theorem untyped_draft_ignores_to (d : DraftDict) :
  type d = "" ->
  (forall w,
      further_validated_draft_dict env d user_profile w
      = further_validated_draft_dict env (with_to d []) user_profile w) /\
  (forall v w w', further_validated_draft_dict env d user_profile w = (Returned v, w') ->
                  vd_recipient v = None /\ vd_topic v = "") /\
  (forall o w w', further_validated_draft_dict env d user_profile w = (o, w') ->
                  exists extra, calls w' = calls w ++ extra /\
                                forallb (fun c => negb (is_resolution_call c)) extra = true).
Proof.
  intros Hty.
  assert (Hs : String.eqb (type d) "stream" = false) by now rewrite Hty.
  assert (Hp : String.eqb (type d) "private" = false) by now rewrite Hty.
  assert (Hp' : String.eqb (type d) "private" && negb (Nat.eqb (List.length (to d)) 0) = false)
    by now rewrite Hp.
  split; [| split].
  - intros w. symmetry. now apply with_to_run.
  - intros v w w'. now apply (untargeted_run d w Hs Hp').
  - intros o w w'. now apply (untargeted_run d w Hs Hp').
Qed.

(** *** Truncation and the user directory *)

Lemma prefix_length (n : nat) : forall s, (String.length (prefix n s) <= n)%nat.
Proof.
  induction n as [| n IH]; intros [| c s]; cbn; try lia.
  specialize (IH s). lia.
Qed.

Lemma prefix_append (n : nat) : forall s, exists rest, s = (prefix n s ++ rest)%string.
Proof.
  induction n as [| n IH]; intros s.
  - exists s. now destruct s.
  - destruct s as [| c s]; [now exists "" |].
    destruct (IH s) as [rest Hrest]. exists rest. cbn. now rewrite <- Hrest.
Qed.

(** A null byte of the truncated text is a null byte of the text, below
    the limit. *)
Lemma contains_nul_prefix (n : nat) : forall s,
  contains_nul (prefix n s) = true ->
  exists i, (i < n)%nat /\ String.get i s = Some NUL.
Proof.
  induction n as [| n IH]; intros [| c s]; cbn; try discriminate.
  intros H. apply orb_true_iff in H. destruct H as [H | H].
  - apply Ascii.eqb_eq in H. subst c. exists 0%nat. split; [lia | reflexivity].
  - destruct (IH s H) as (i & Hi & Hget). exists (S i). split; [lia | exact Hget].
Qed.

Lemma find_first {A} (f : A -> bool) (l : list A) (x : A) :
  find f l = Some x ->
  exists before after,
    l = before ++ x :: after /\ Forall (fun y => f y = false) before /\ f x = true.
Proof.
  induction l as [| y l IH]; cbn; [discriminate |].
  destruct (f y) eqn:Hy.
  - intros [= ->]. exists [], l. repeat split; [constructor | assumption].
  - intros H. destruct (IH H) as (before & after & -> & Hb & Hx).
    exists (y :: before), after. repeat split; [constructor |]; assumption.
Qed.

Lemma known_profiles_all (realm : Realm) (user_ids : list Z) :
  find (invalid_user env realm) user_ids = None ->
  Forall2 (fun user_id p => visible_user env user_id realm = Some p)
          user_ids (known_profiles env realm user_ids).
Proof.
  induction user_ids as [| user_id rest IH]; cbn; [constructor |].
  unfold invalid_user at 1.
  destruct (visible_user env user_id realm) as [p |] eqn:Hv; [| discriminate].
  intros H. cbn. constructor; [exact Hv | now apply IH].
Qed.

End Normaliser.

(** ** Content, timestamp and the two resolving branches *)

Section Checks.

Variable env : Collaborators.
Variable user_profile : UserProfile.

(** C5. The content is cut to the maximum content length first, and the
    content error is raised exactly when what is left holds a null byte;
    so a text whose null bytes all lie at or beyond the limit passes.
    (The recipient deriver is taken not to report this very message.) *)
Theorem content_error_iff_truncated_has_nul (d : DraftDict) (w : World) :
  deriver_never_reports env "Content must not contain null bytes" ->
  ((exists w', further_validated_draft_dict env d user_profile w
               = (Raised (JsonableError "Content must not contain null bytes"), w'))
   <-> contains_nul (truncate_body env (content d)) = true) /\
  truncate_body env (content d) = prefix (MAX_MESSAGE_LENGTH env) (content d) /\
  ((forall i, String.get i (content d) = Some NUL -> (MAX_MESSAGE_LENGTH env <= i)%nat) ->
   forall w', further_validated_draft_dict env d user_profile w
              <> (Raised (JsonableError "Content must not contain null bytes"), w')).
Proof.
  intros Hder.
  assert (Hiff : (exists w', further_validated_draft_dict env d user_profile w
                    = (Raised (JsonableError "Content must not contain null bytes"), w'))
                 <-> contains_nul (truncate_body env (content d)) = true).
  { split.
    - intros [w' Hrun].
      destruct (contains_nul (truncate_body env (content d))) eqn:Hc; [reflexivity | exfalso].
      destruct (lt_zero (rounded_timestamp d w)) eqn:Ht;
        [rewrite (timestamp_run env) in Hrun by assumption; discriminate |].
      destruct (String.eqb (type d) "stream") eqn:Hs.
      + rewrite (stream_run env) in Hrun by assumption.
        destruct (contains_nul (truncate_topic env (topic d))); [discriminate |].
        destruct (to d) as [| to_0 [| to_1 rest]]; try discriminate.
        cbn zeta in Hrun. destruct (resolve_stream env user_profile to_0); discriminate.
      + destruct (String.eqb (type d) "private" && negb (Nat.eqb (List.length (to d)) 0)) eqn:Hp.
        * rewrite (private_run env) in Hrun by assumption. cbn zeta in Hrun.
          destruct (find _ _); [cbn in Hrun; discriminate |].
          destruct (derive_recipient env _ user_profile) as [r | [| m ms]] eqn:Hd;
            try discriminate.
          injection Hrun as -> _. now apply (Hder _ _ _ Hd).
        * rewrite (plain_run env) in Hrun by assumption. discriminate.
    - intros Hc. exists w. now apply content_run. }
  split; [exact Hiff | split; [reflexivity |]].
  intros Hfar w' Hrun.
  assert (Hc : contains_nul (truncate_body env (content d)) = true)
    by (apply Hiff; now exists w').
  destruct (contains_nul_prefix _ _ Hc) as (i & Hi & Hget).
  specialize (Hfar i Hget). lia.
Qed.

(** C3, as the code has it.  Once the content check has passed, the
    timestamp is the supplied one if present and the clock reading
    otherwise, rounded to 6 decimals; the timestamp error is raised
    whenever that rounded value is below zero (so always for a negative
    [int]); and a record that is returned carries the rounded value, which
    is then not below zero, as its last edit time. *)
Theorem timestamp_rounded_then_checked (d : DraftDict) (w : World) :
  contains_nul (truncate_body env (content d)) = false ->
  (forall t, timestamp d = Some t -> rounded_timestamp d w = round t 6) /\
  (timestamp d = None -> rounded_timestamp d w = round (PyFloat (now w)) 6) /\
  (lt_zero (rounded_timestamp d w) = true ->
   further_validated_draft_dict env d user_profile w
   = (Raised (JsonableError "Timestamp must not be negative."), clock_read env w)) /\
  (forall z, timestamp d = Some (PyInt z) -> z < 0 ->
   further_validated_draft_dict env d user_profile w
   = (Raised (JsonableError "Timestamp must not be negative."), clock_read env w)) /\
  (forall v w', further_validated_draft_dict env d user_profile w = (Returned v, w') ->
                lt_zero (rounded_timestamp d w) = false /\
                vd_last_edit_time v = timestamp_to_datetime (rounded_timestamp d w)).
Proof.
  intros Hc. unfold rounded_timestamp at 1 2.
  split; [now intros t -> | split; [now intros -> | split; [| split]]].
  - intros Ht. now apply timestamp_run.
  - intros z Hz Hneg. apply timestamp_run; [assumption |].
    unfold rounded_timestamp. rewrite Hz. unfold round, lt_zero. now apply Z.ltb_lt.
  - intros v w' Hrun. now destruct (returned_inv env _ _ _ _ _ Hrun) as (_ & Ht & _ & Hl).
Qed.

(** C4, as the code has it.  For a stream descriptor that passed the
    content and the timestamp checks: the topic is cut to the maximum topic
    length; a null byte in what is left raises the topic error, whatever
    [to] holds and before any stream is looked up; otherwise a [to] list
    that is not a singleton raises the stream-count error, again before any
    lookup; otherwise the single ID is resolved, and a missing stream and
    an inaccessible one raise the same error. *)
Theorem stream_steps_in_order (d : DraftDict) (w : World) :
  type d = "stream" ->
  contains_nul (truncate_body env (content d)) = false ->
  lt_zero (rounded_timestamp d w) = false ->
  truncate_topic env (topic d) = prefix (MAX_TOPIC_NAME_LENGTH env) (topic d) /\
  (String.length (truncate_topic env (topic d)) <= MAX_TOPIC_NAME_LENGTH env)%nat /\
  (contains_nul (truncate_topic env (topic d)) = true ->
   further_validated_draft_dict env d user_profile w
   = (Raised (JsonableError "Topic must not contain null bytes"), clock_read env w)) /\
  (contains_nul (truncate_topic env (topic d)) = false ->
   List.length (to d) <> 1%nat ->
   further_validated_draft_dict env d user_profile w
   = (Raised (JsonableError "Must specify exactly 1 stream ID for stream messages"),
      clock_read env w)) /\
  (contains_nul (truncate_topic env (topic d)) = false ->
   forall to_0, to d = [to_0] ->
     let w1 := logged (CallAccessStream user_profile to_0) (clock_read env w) in
     (resolve_stream env user_profile to_0 = NotFound ->
      further_validated_draft_dict env d user_profile w
      = (Raised (JsonableError "Invalid stream id"), w1)) /\
     (resolve_stream env user_profile to_0 = AccessDenied ->
      further_validated_draft_dict env d user_profile w
      = (Raised (JsonableError "Invalid stream id"), w1)) /\
     (forall stream recipient sub,
         resolve_stream env user_profile to_0 = StreamFound stream recipient sub ->
         further_validated_draft_dict env d user_profile w
         = (Returned {| vd_recipient := Some recipient;
                        vd_topic := truncate_topic env (topic d);
                        vd_content := truncate_body env (content d);
                        vd_last_edit_time := timestamp_to_datetime (rounded_timestamp d w) |},
            w1))).
Proof.
  intros Hty Hc Ht.
  assert (Hs : String.eqb (type d) "stream" = true) by now rewrite Hty.
  pose proof (stream_run env user_profile d w Hs Hc Ht) as Hrun.
  split; [reflexivity | split; [apply prefix_length | split; [| split]]].
  - intros Hn. now rewrite Hn in Hrun.
  - intros Hn Hlen. rewrite Hn in Hrun.
    destruct (to d) as [| to_0 [| to_1 rest]]; [exact Hrun | now elim Hlen | exact Hrun].
  - intros Hn to_0 Hto w1. rewrite Hn, Hto in Hrun. cbn zeta in Hrun. subst w1.
    split; [| split].
    + intros Hr. now rewrite Hr in Hrun.
    + intros Hr. now rewrite Hr in Hrun.
    + intros stream recipient sub Hr. now rewrite Hr in Hrun.
Qed.

(** C6. A private descriptor with a non-empty [to] list that normalises
    yields the empty topic, whatever topic came in, and the recipient the
    deriver gives for the profiles of the deduplicated IDs: each ID of [to]
    once, resolved by the user directory.  It does normalise once the
    content and the timestamp checks pass, every ID is visible and the
    deriver accepts. *)
Theorem private_topic_empty_recipient_derived (d : DraftDict) (w : World) :
  set_semantics env ->
  type d = "private" ->
  to d <> [] ->
  (forall v w', further_validated_draft_dict env d user_profile w = (Returned v, w') ->
     vd_topic v = "" /\
     exists to_users recipient,
       vd_recipient v = Some recipient /\
       derive_recipient env to_users user_profile = inl recipient /\
       Forall2 (fun user_id p => visible_user env user_id (realm user_profile) = Some p)
               (set_iter env (to d)) to_users /\
       NoDup (set_iter env (to d)) /\
       (forall i, In i (set_iter env (to d)) <-> In i (to d))) /\
  (contains_nul (truncate_body env (content d)) = false ->
   lt_zero (rounded_timestamp d w) = false ->
   (forall i, In i (to d) -> visible_user env i (realm user_profile) <> None) ->
   forall recipient,
     derive_recipient env (known_profiles env (realm user_profile) (set_iter env (to d)))
                      user_profile = inl recipient ->
     exists w', further_validated_draft_dict env d user_profile w
                = (Returned {| vd_recipient := Some recipient;
                               vd_topic := "";
                               vd_content := truncate_body env (content d);
                               vd_last_edit_time :=
                                 timestamp_to_datetime (rounded_timestamp d w) |},
                   w')).
Proof.
  intros Hset Hty Hto.
  assert (Hs : String.eqb (type d) "stream" = false) by now rewrite Hty.
  assert (Hp : String.eqb (type d) "private" && negb (Nat.eqb (List.length (to d)) 0) = true).
  { rewrite Hty. destruct (to d); [contradiction | reflexivity]. }
  destruct (Hset (to d)) as [Hnodup Hmem].
  split.
  - intros v w' Hrun.
    destruct (returned_inv env _ _ _ _ _ Hrun) as (Hc & Ht & _).
    rewrite (private_run env) in Hrun by assumption. cbn zeta in Hrun.
    destruct (find _ _) eqn:Hfind; [discriminate |].
    destruct (derive_recipient env _ user_profile) as [r | [| m ms]] eqn:Hd; try discriminate.
    injection Hrun as <- _. split; [reflexivity |].
    exists (known_profiles env (realm user_profile) (set_iter env (to d))), r.
    repeat split; trivial; try (now apply Hmem).
    now apply known_profiles_all.
  - intros Hc Ht Hvis recipient Hd.
    rewrite (private_run env) by assumption. cbn zeta.
    destruct (find _ _) as [bad |] eqn:Hfind.
    + apply find_some in Hfind. destruct Hfind as [Hin Hbad].
      apply Hmem in Hin. specialize (Hvis bad Hin).
      unfold invalid_user in Hbad.
      destruct (visible_user env bad (realm user_profile)); [discriminate | contradiction].
    + rewrite Hd. eexists. reflexivity.
Qed.

(** C7, as the code has it.  For a private descriptor with a non-empty
    [to] list that passed the content and the timestamp checks: when some
    ID of [to] is not a visible user, the run raises "Invalid user ID <id>"
    for the first such ID in the order in which the set of IDs is gone
    through, right after the user directory was asked and before any
    recipient is derived. *)
Theorem private_first_invalid_user_reported (d : DraftDict) (w : World) :
  set_semantics env ->
  type d = "private" ->
  to d <> [] ->
  contains_nul (truncate_body env (content d)) = false ->
  lt_zero (rounded_timestamp d w) = false ->
  (exists i, In i (to d) /\ visible_user env i (realm user_profile) = None) ->
  exists user_id before after,
    set_iter env (to d) = before ++ user_id :: after /\
    Forall (fun i => visible_user env i (realm user_profile) <> None) before /\
    In user_id (to d) /\
    visible_user env user_id (realm user_profile) = None /\
    further_validated_draft_dict env d user_profile w
    = (Raised (JsonableError ("Invalid user ID " ++ str user_id)%string),
       logged (CallGetUserProfiles (set_iter env (to d)) (realm user_profile))
              (clock_read env w)).
Proof.
  intros Hset Hty Hto Hc Ht (i & Hi & Hinv).
  assert (Hs : String.eqb (type d) "stream" = false) by now rewrite Hty.
  assert (Hp : String.eqb (type d) "private" && negb (Nat.eqb (List.length (to d)) 0) = true).
  { rewrite Hty. destruct (to d); [contradiction | reflexivity]. }
  destruct (Hset (to d)) as [_ Hmem].
  rewrite (private_run env) by assumption. cbn zeta.
  destruct (find _ _) as [bad |] eqn:Hfind.
  - destruct (find_first _ _ _ Hfind) as (before & after & Hsplit & Hbefore & Hbad).
    exists bad, before, after.
    assert (Hnone : visible_user env bad (realm user_profile) = None).
    { unfold invalid_user in Hbad.
      now destruct (visible_user env bad (realm user_profile)). }
    repeat split; trivial.
    + eapply Forall_impl; [| exact Hbefore].
      intros a Ha. unfold invalid_user in Ha.
      now destruct (visible_user env a (realm user_profile)).
    + apply Hmem. rewrite Hsplit. apply in_elt.
  - exfalso. apply Hmem in Hi.
    pose proof (find_none _ _ Hfind i Hi) as Hf.
    unfold invalid_user in Hf. now rewrite Hinv in Hf.
Qed.

End Checks.

(** ** The concrete server: checks of the model, instances and departures *)

Section OnDemo.

Import Demo.

(** The rounding of the test suite: "we only go as far microseconds". *)
Example round_test_suite :
  round (PyFloat 1595479019.4391587) 6 = PyFloat 1595479019.439159.
Proof. vm_compute. reflexivity. Qed.

Example round_int : round (PyInt 1595479019) 6 = PyInt 1595479019.
Proof. reflexivity. Qed.

Example invalid_timestamp_rejected :
  create_drafts env hamlet [invalid_timestamp_draft] world
  = (Raised (JsonableError "Timestamp must not be negative."), clock_read env world).
Proof. vm_compute. reflexivity. Qed.

Example inaccessible_and_missing_stream_alike :
  fst (further_validated_draft_dict env (with_to stream_draft [2]) hamlet world)
  = Raised (JsonableError "Invalid stream id") /\
  fst (further_validated_draft_dict env (with_to stream_draft [3]) hamlet world)
  = Raised (JsonableError "Invalid stream id").
Proof. split; vm_compute; reflexivity. Qed.

Lemma demo_set_semantics : set_semantics env.
Proof.
  intros ids. split.
  - apply NoDup_nodup.
  - intros i. apply nodup_In.
Qed.

Lemma demo_deriver_never_reports (msg : string) :
  msg <> "Message must have recipients" -> deriver_never_reports env msg.
Proof.
  intros Hmsg [| u us] sender messages; cbn.
  - intros [= <-]. cbn. intros [= <-]. now apply Hmsg.
  - discriminate.
Qed.

(** *** Instances of the theorems *)

Lemma create_drafts_first_error_persists_nothing_witness :
  exists vs w1 w2,
    normalizes env hamlet world [stream_draft; private_draft] vs w1 /\
    further_validated_draft_dict env unknown_user_draft hamlet w1
    = (Raised (JsonableError "Invalid user ID 99999999999999"), w2) /\
    create_drafts env hamlet
                  ([stream_draft; private_draft] ++ unknown_user_draft :: [untyped_draft])
                  world
    = (Raised (JsonableError "Invalid user ID 99999999999999"), w2) /\
    drafts_table w2 = drafts_table world.
Proof.
  eexists. eexists. eexists.
  eassert (Hpre : normalizes env hamlet world [stream_draft; private_draft] _ _).
  { econstructor; [vm_compute; reflexivity |].
    econstructor; [vm_compute; reflexivity |]. constructor. }
  eassert (Hd : further_validated_draft_dict env unknown_user_draft hamlet _
               = (Raised (JsonableError "Invalid user ID 99999999999999"), _)).
  { vm_compute. reflexivity. }
  split; [exact Hpre | split; [exact Hd |]].
  destruct (create_drafts_first_error_persists_nothing
              env hamlet [stream_draft; private_draft] [untyped_draft]
              unknown_user_draft _ _ _ _ _ Hpre Hd) as (Hrun & Htable & _).
  split; [exact Hrun | exact Htable].
Defined.

Lemma create_drafts_persists_whole_batch_witness :
  exists vs w1,
    normalizes env hamlet world [stream_draft; private_draft; untyped_draft] vs w1 /\
    exists w2,
      create_drafts env hamlet [stream_draft; private_draft; untyped_draft] world
      = (Returned (json_success [Some 1; Some 2; Some 3]), w2) /\
      List.length (drafts_table w2) = 3%nat.
Proof.
  eexists. eexists.
  eassert (Hall : normalizes env hamlet world [stream_draft; private_draft; untyped_draft] _ _).
  { econstructor; [vm_compute; reflexivity |].
    econstructor; [vm_compute; reflexivity |].
    econstructor; [vm_compute; reflexivity |]. constructor. }
  split; [exact Hall |].
  destruct (create_drafts_persists_whole_batch env hamlet _ _ _ _ Hall)
    as (created & w2 & extra & Hrun & Htable & Hlen & _ & Hids & _).
  exists w2. split.
  - rewrite Hrun, Hids. reflexivity.
  - rewrite Htable, length_app, Hlen. reflexivity.
Defined.

Lemma timestamp_rounded_then_checked_witness :
  contains_nul (truncate_body env (content invalid_timestamp_draft)) = false /\
  further_validated_draft_dict env invalid_timestamp_draft hamlet world
  = (Raised (JsonableError "Timestamp must not be negative."), clock_read env world).
Proof.
  split; [reflexivity |].
  apply (timestamp_rounded_then_checked env hamlet invalid_timestamp_draft world);
    vm_compute; reflexivity.
Defined.

Lemma stream_steps_in_order_witness :
  type nul_topic_draft = "stream" /\
  contains_nul (truncate_body env (content nul_topic_draft)) = false /\
  lt_zero (rounded_timestamp nul_topic_draft world) = false /\
  List.length (to nul_topic_draft) = 2%nat /\
  further_validated_draft_dict env nul_topic_draft hamlet world
  = (Raised (JsonableError "Topic must not contain null bytes"), clock_read env world).
Proof.
  do 4 (split; [vm_compute; reflexivity |]).
  apply (stream_steps_in_order env hamlet nul_topic_draft world);
    vm_compute; reflexivity.
Defined.

Lemma content_error_iff_truncated_has_nul_witness :
  deriver_never_reports env "Content must not contain null bytes" /\
  (exists i, String.get i (content late_nul_draft) = Some NUL) /\
  forall w', further_validated_draft_dict env late_nul_draft hamlet world
             <> (Raised (JsonableError "Content must not contain null bytes"), w').
Proof.
  assert (Hder : deriver_never_reports env "Content must not contain null bytes")
    by (apply demo_deriver_never_reports; discriminate).
  split; [exact Hder | split; [exists 41%nat; reflexivity |]].
  intros w' Hrun.
  assert (Hc : contains_nul (truncate_body env (content late_nul_draft)) = true).
  { apply (content_error_iff_truncated_has_nul env hamlet late_nul_draft world Hder).
    now exists w'. }
  vm_compute in Hc. discriminate.
Defined.

Lemma private_topic_empty_recipient_derived_witness :
  set_semantics env /\
  type private_draft = "private" /\
  to private_draft <> [] /\
  exists w',
    further_validated_draft_dict env private_draft hamlet world
    = (Returned {| vd_recipient := Some (mkRecipient 202);
                   vd_topic := "";
                   vd_content := "What if we made it possible?";
                   vd_last_edit_time := utc_from_timestamp (PyInt 1595479019) |},
       w').
Proof.
  repeat split; try apply demo_set_semantics; try discriminate.
  refine (proj2 (private_topic_empty_recipient_derived env hamlet private_draft world
                   demo_set_semantics eq_refl _) eq_refl eq_refl _ _ eq_refl).
  - discriminate.
  - intros i [<- | [<- | [<- | []]]]; discriminate.
Defined.

Lemma private_first_invalid_user_reported_witness :
  exists w',
    further_validated_draft_dict env unknown_user_draft hamlet world
    = (Raised (JsonableError "Invalid user ID 99999999999999"), w').
Proof.
  assert (Hto : to unknown_user_draft <> []) by discriminate.
  assert (Hbad : exists i, In i (to unknown_user_draft) /\
                           visible_user env i (realm hamlet) = None).
  { exists 99999999999999. split; [right; left; reflexivity | reflexivity]. }
  destruct (private_first_invalid_user_reported env hamlet unknown_user_draft world
              demo_set_semantics eq_refl Hto eq_refl eq_refl Hbad)
    as (user_id & before & after & Hsplit & Hbefore & _ & Hnone & Hrun).
  eexists. rewrite Hrun. f_equal. f_equal. f_equal. f_equal.
  vm_compute in Hsplit.
  destruct before as [| b0 [| b1 before]].
  - injection Hsplit as <- _. discriminate Hnone.
  - injection Hsplit as _ <- _. reflexivity.
  - injection Hsplit as _ _ Hrest. now destruct before.
Defined.

Lemma no_recipient_without_target_witness :
  (type empty_private_draft = "private" /\ to empty_private_draft = []) /\
  further_validated_draft_dict env empty_private_draft hamlet world
  = (Returned {| vd_recipient := None;
                 vd_topic := "";
                 vd_content := "Let's add backend support.";
                 vd_last_edit_time := utc_from_timestamp (PyFloat 1595479019.43915) |},
     clock_read env world).
Proof.
  split; [split; reflexivity |].
  apply (no_recipient_without_target env hamlet empty_private_draft world);
    [right; split; reflexivity | reflexivity | reflexivity].
Defined.

Lemma topic_ignored_outside_stream_witness :
  type private_draft <> "stream" /\
  further_validated_draft_dict env (with_topic private_draft nul_string) hamlet world
  = further_validated_draft_dict env private_draft hamlet world.
Proof.
  assert (Hty : type private_draft <> "stream") by discriminate.
  split; [exact Hty |].
  apply (topic_ignored_outside_stream env hamlet private_draft Hty).
Defined.

Lemma untyped_draft_ignores_to_witness :
  type untyped_draft = "" /\
  to untyped_draft = [99] /\
  further_validated_draft_dict env untyped_draft hamlet world
  = further_validated_draft_dict env (with_to untyped_draft []) hamlet world.
Proof.
  do 2 (split; [reflexivity |]).
  apply (untyped_draft_ignores_to env hamlet untyped_draft eq_refl).
Defined.

(** *** Where the code departs from a stricter reading *)

(** C3. A supplied timestamp below zero that rounds to zero is accepted:
    the check is on the rounded value. *)
Lemma negative_timestamp_rounding_to_zero_accepted :
  draft_dict_validator tiny_negative_draft = true /\
  timestamp tiny_negative_draft = Some (PyFloat (-0.0000001)) /\
  lt_zero (PyFloat (-0.0000001)) = true /\
  further_validated_draft_dict env tiny_negative_draft hamlet world
  = (Returned {| vd_recipient := None;
                 vd_topic := "";
                 vd_content := "hi";
                 vd_last_edit_time := utc_from_timestamp (PyFloat (-0)) |},
     clock_read env world).
Proof. repeat split; vm_compute; reflexivity. Qed.

(** C4. A stream descriptor whose truncated topic holds a null byte is not
    rejected with the topic error when its content holds one as well: the
    content check comes first. *)
Lemma stream_topic_check_after_content_check :
  draft_dict_validator nul_content_stream_draft = true /\
  type nul_content_stream_draft = "stream" /\
  contains_nul (truncate_topic env (topic nul_content_stream_draft)) = true /\
  further_validated_draft_dict env nul_content_stream_draft hamlet world
  = (Raised (JsonableError "Content must not contain null bytes"), world).
Proof. repeat split; vm_compute; reflexivity. Qed.

(** C7. A private descriptor to an unknown user is not rejected with the
    user error when its content holds a null byte: the content check comes
    first. *)
Lemma private_user_check_after_content_check :
  draft_dict_validator nul_content_private_draft = true /\
  type nul_content_private_draft = "private" /\
  to nul_content_private_draft = [99999999999999] /\
  visible_user env 99999999999999 (realm hamlet) = None /\
  further_validated_draft_dict env nul_content_private_draft hamlet world
  = (Raised (JsonableError "Content must not contain null bytes"), world).
Proof. repeat split; vm_compute; reflexivity. Qed.

End OnDemo.

(** * Further properties of the normaliser and of the endpoint *)

Section Runs.

Variable env : Collaborators.
Variable user_profile : UserProfile.

(** Every run of the normaliser, by the tests it goes through. *)
Lemma further_validated_draft_dict_run (d : DraftDict) (w : World) :
  further_validated_draft_dict env d user_profile w =
  if contains_nul (truncate_body env (content d))
  then (Raised (JsonableError "Content must not contain null bytes"), w)
  else if lt_zero (rounded_timestamp d w)
  then (Raised (JsonableError "Timestamp must not be negative."), clock_read env w)
  else if String.eqb (type d) "stream"
  then
    if contains_nul (truncate_topic env (topic d))
    then (Raised (JsonableError "Topic must not contain null bytes"), clock_read env w)
    else
      match to d with
      | [to_0] =>
          let w1 := logged (CallAccessStream user_profile to_0) (clock_read env w) in
          match resolve_stream env user_profile to_0 with
          | StreamFound _ recipient _ =>
              (Returned {| vd_recipient := Some recipient;
                           vd_topic := truncate_topic env (topic d);
                           vd_content := truncate_body env (content d);
                           vd_last_edit_time := timestamp_to_datetime (rounded_timestamp d w) |},
               w1)
          | AccessDenied => (Raised (JsonableError "Invalid stream id"), w1)
          | NotFound => (Raised (JsonableError "Invalid stream id"), w1)
          end
      | _ => (Raised (JsonableError "Must specify exactly 1 stream ID for stream messages"),
              clock_read env w)
      end
  else if String.eqb (type d) "private" && negb (Nat.eqb (List.length (to d)) 0)
  then
    let user_ids := set_iter env (to d) in
    let w1 := logged (CallGetUserProfiles user_ids (realm user_profile)) (clock_read env w) in
    match find (invalid_user env (realm user_profile)) user_ids with
    | Some user_id => (Raised (JsonableError ("Invalid user ID " ++ str user_id)%string), w1)
    | None =>
        let to_users := known_profiles env (realm user_profile) user_ids in
        let w2 := logged (CallRecipientFor to_users user_profile) w1 in
        match derive_recipient env to_users user_profile with
        | inl recipient =>
            (Returned {| vd_recipient := Some recipient;
                         vd_topic := "";
                         vd_content := truncate_body env (content d);
                         vd_last_edit_time := timestamp_to_datetime (rounded_timestamp d w) |},
             w2)
        | inr (messages_0 :: _) => (Raised (JsonableError messages_0), w2)
        | inr [] => (Raised IndexError, w2)
        end
    end
  else
    (Returned {| vd_recipient := None;
                 vd_topic := "";
                 vd_content := truncate_body env (content d);
                 vd_last_edit_time := timestamp_to_datetime (rounded_timestamp d w) |},
     clock_read env w).
Proof.
  destruct (contains_nul (truncate_body env (content d))) eqn:Hc;
    [now apply content_run |].
  destruct (lt_zero (rounded_timestamp d w)) eqn:Ht;
    [now apply timestamp_run |].
  destruct (String.eqb (type d) "stream") eqn:Hs;
    [now apply stream_run |].
  destruct (String.eqb (type d) "private" && negb (Nat.eqb (List.length (to d)) 0)) eqn:Hp;
    [now apply private_run | now apply plain_run].
Qed.

(** Take a run apart along [further_validated_draft_dict_run]. *)
Ltac cases_of_run H :=
  rewrite further_validated_draft_dict_run in H;
  destruct (contains_nul (truncate_body env (content _))) eqn:Econtent;
  [| destruct (lt_zero (rounded_timestamp _ _)) eqn:Etimestamp;
     [| destruct (String.eqb (type _) "stream") eqn:Estream;
        [ destruct (contains_nul (truncate_topic env (topic _))) eqn:Etopic;
          [| destruct (to _) as [| to_0 [| to_1 to_rest]] eqn:Eto;
             [| cbn zeta in H;
                destruct (resolve_stream env user_profile to_0)
                  as [stream recipient sub | |] eqn:Eresolve |] ]
        | destruct (String.eqb (type _) "private" && negb (Nat.eqb (List.length (to _)) 0))
                   eqn:Eprivate;
          [ cbn zeta in H;
            destruct (find _ _) as [bad |] eqn:Efind;
            [| destruct (derive_recipient env _ user_profile)
                 as [recipient | [| messages_0 messages]] eqn:Ederive ] |] ] ] ].

(** X1. A record the normaliser returns went through every check: its
    content is the truncated input content and holds no null byte, its
    topic holds no null byte, and its last edit time comes from a timestamp
    that is not below zero. *)
Theorem returned_record_is_clean (d : DraftDict) (w w' : World) (v : ValidDraftDict) :
  further_validated_draft_dict env d user_profile w = (Returned v, w') ->
  vd_content v = truncate_body env (content d) /\
  contains_nul (vd_content v) = false /\
  contains_nul (vd_topic v) = false /\
  vd_last_edit_time v = timestamp_to_datetime (rounded_timestamp d w) /\
  lt_zero (timestamp_of (vd_last_edit_time v)) = false.
Proof.
  intros H. cases_of_run H; try discriminate; injection H as <- <-; cbn; auto.
Qed.

(** X3. A stream draft is only accepted with exactly one ID in [to], and
    that ID is one the stream resolver finds for the requesting user; the
    record then carries the recipient of that stream and the truncated
    topic. *)
Theorem stream_accepted_only_if_accessible (d : DraftDict) (w w' : World) (v : ValidDraftDict) :
  type d = "stream" ->
  further_validated_draft_dict env d user_profile w = (Returned v, w') ->
  exists to_0 stream recipient sub,
    to d = [to_0] /\
    resolve_stream env user_profile to_0 = StreamFound stream recipient sub /\
    vd_recipient v = Some recipient /\
    vd_topic v = truncate_topic env (topic d) /\
    w' = logged (CallAccessStream user_profile to_0) (clock_read env w).
Proof.
  intros Hty H. cases_of_run H; try discriminate.
  - injection H as <- <-. exists to_0, stream, recipient, sub. cbn. auto.
  - rewrite Hty in Estream. discriminate.
  - rewrite Hty in Estream. discriminate.
Qed.

(** X4. A private draft with a non-empty [to] list is only accepted when
    every ID in [to] is a user the directory shows to the requester. *)
Theorem private_accepted_only_if_all_visible (d : DraftDict) (w w' : World) (v : ValidDraftDict) :
  set_semantics env ->
  type d = "private" ->
  to d <> [] ->
  further_validated_draft_dict env d user_profile w = (Returned v, w') ->
  Forall (fun user_id => visible_user env user_id (realm user_profile) <> None) (to d).
Proof.
  intros Hset Hty Hto H.
  assert (Hp : String.eqb (type d) "private" && negb (Nat.eqb (List.length (to d)) 0) = true).
  { rewrite Hty. destruct (to d); [contradiction | reflexivity]. }
  cases_of_run H; try discriminate; try (rewrite Hty in Estream; discriminate).
  apply Forall_forall. intros i Hi Hnone.
  apply (proj2 (Hset (to d))) in Hi.
  pose proof (find_none _ _ Efind i Hi) as Hf.
  unfold invalid_user in Hf. now rewrite Hnone in Hf.
Qed.

(** X5. In a returned record the recipient is null exactly when the
    descriptor is neither a stream draft nor a private draft with a
    non-empty [to] list, and the topic can only be non-empty for a stream
    draft. *)
Theorem recipient_null_iff_untargeted (d : DraftDict) (w w' : World) (v : ValidDraftDict) :
  further_validated_draft_dict env d user_profile w = (Returned v, w') ->
  (vd_recipient v = None <->
   type d <> "stream" /\ (type d <> "private" \/ to d = [])) /\
  (vd_topic v <> "" -> type d = "stream").
Proof.
  intros H. cases_of_run H; try discriminate; injection H as <- <-; cbn.
  - apply String.eqb_eq in Estream. split; [| auto].
    split; [discriminate | intros [Hn _]; contradiction].
  - apply String.eqb_neq in Estream. apply andb_true_iff in Eprivate.
    destruct Eprivate as [Hp Hlen]. apply String.eqb_eq in Hp.
    split; [| intros Hn; now elim Hn].
    split; [discriminate |].
    intros [_ [Hn | Hn]]; [contradiction |].
    rewrite Hn in Hlen. discriminate.
  - apply String.eqb_neq in Estream. apply andb_false_iff in Eprivate.
    split; [| intros Hn; now elim Hn].
    split; [| reflexivity]. intros _. split; [assumption |].
    destruct Eprivate as [Hp | Hlen].
    + left. now apply String.eqb_neq.
    + right. destruct (to d); [reflexivity | discriminate].
Qed.


End Runs.

Section Worlds.

Variable env : Collaborators.
Variable user_profile : UserProfile.

(** The clock after a run: read once when the content check passes, also
    when the descriptor brings its own timestamp, and not at all
    otherwise. *)
Lemma clock_after_run (d : DraftDict) (w : World) :
  now (snd (further_validated_draft_dict env d user_profile w)) =
  if contains_nul (truncate_body env (content d)) then now w else tick env (now w).
Proof.
  rewrite further_validated_draft_dict_run.
  destruct (contains_nul (truncate_body env (content d))); [reflexivity |].
  destruct (lt_zero (rounded_timestamp d w)); [reflexivity |].
  destruct (String.eqb (type d) "stream").
  - destruct (contains_nul (truncate_topic env (topic d))); [reflexivity |].
    destruct (to d) as [| to_0 [| to_1 rest]]; try reflexivity.
    cbn zeta. destruct (resolve_stream env user_profile to_0); reflexivity.
  - destruct (String.eqb (type d) "private" && negb (Nat.eqb (List.length (to d)) 0));
      [| reflexivity].
    cbn zeta. destruct (find _ _); [reflexivity |].
    destruct (derive_recipient env _ user_profile) as [r | [| m ms]]; reflexivity.
Qed.

(** The outcome is a function of the descriptor and its rounded timestamp. *)
Lemma outcome_by_rounded_timestamp (d : DraftDict) (w1 w2 : World) :
  rounded_timestamp d w1 = rounded_timestamp d w2 ->
  fst (further_validated_draft_dict env d user_profile w1)
  = fst (further_validated_draft_dict env d user_profile w2).
Proof.
  intros Hrt. rewrite !further_validated_draft_dict_run, Hrt.
  destruct (contains_nul (truncate_body env (content d))); [reflexivity |].
  destruct (lt_zero (rounded_timestamp d w2)); [reflexivity |].
  destruct (String.eqb (type d) "stream").
  - destruct (contains_nul (truncate_topic env (topic d))); [reflexivity |].
    destruct (to d) as [| to_0 [| to_1 rest]]; try reflexivity.
    cbn zeta. destruct (resolve_stream env user_profile to_0); reflexivity.
  - destruct (String.eqb (type d) "private" && negb (Nat.eqb (List.length (to d)) 0));
      [| reflexivity].
    cbn zeta. destruct (find _ _); [reflexivity |].
    destruct (derive_recipient env _ user_profile) as [r | [| m ms]]; reflexivity.
Qed.



(** A run in one world, replayed in another that shows the same time. *)
Lemma run_in_same_time (d : DraftDict) (w1 w2 w1' : World) (o : Outcome ValidDraftDict) :
  now w1 = now w2 ->
  further_validated_draft_dict env d user_profile w1 = (o, w1') ->
  exists w2',
    further_validated_draft_dict env d user_profile w2 = (o, w2') /\ now w1' = now w2'.
Proof.
  intros Hnow H.
  assert (Ho : fst (further_validated_draft_dict env d user_profile w1)
               = fst (further_validated_draft_dict env d user_profile w2))
    by (apply outcome_by_rounded_timestamp; unfold rounded_timestamp; now rewrite Hnow).
  assert (Hn : now (snd (further_validated_draft_dict env d user_profile w1))
               = now (snd (further_validated_draft_dict env d user_profile w2)))
    by (rewrite !clock_after_run; now rewrite Hnow).
  rewrite H in Ho, Hn. cbn in Ho, Hn.
  destruct (further_validated_draft_dict env d user_profile w2) as [o2 w2'] eqn:E2.
  cbn in Ho, Hn. subst o2. now exists w2'.
Qed.

End Worlds.

(** ** Requests, one after the other *)

Section Requests.

Variable env : Collaborators.
Variable user_profile : UserProfile.

Lemma normalizes_app (ds1 ds2 : list DraftDict) (vs1 vs2 : list ValidDraftDict)
      (w w1 w2 : World) :
  normalizes env user_profile w ds1 vs1 w1 ->
  normalizes env user_profile w1 ds2 vs2 w2 ->
  normalizes env user_profile w (ds1 ++ ds2) (vs1 ++ vs2) w2.
Proof.
  induction 1 as [w | w d v w0 ds vs w1 Hd _ IH]; intros H2; cbn; [exact H2 |].
  econstructor; [exact Hd | now apply IH].
Qed.

Lemma normalizes_app_inv (ds1 ds2 : list DraftDict) : forall (vs : list ValidDraftDict) (w w2 : World),
  normalizes env user_profile w (ds1 ++ ds2) vs w2 ->
  exists vs1 vs2 w1,
    vs = vs1 ++ vs2 /\
    normalizes env user_profile w ds1 vs1 w1 /\
    normalizes env user_profile w1 ds2 vs2 w2.
Proof.
  induction ds1 as [| d ds1 IH]; intros vs w w2 H; cbn in H.
  - exists [], vs, w. repeat split; [constructor | exact H].
  - inversion H as [| w0 d0 v w1 ds vs' w3 Hd Hrest]; subst.
    destruct (IH _ _ _ Hrest) as (vs1 & vs2 & wm & -> & H1 & H2).
    exists (v :: vs1), vs2, wm. repeat split; [| exact H2].
    econstructor; eassumption.
Qed.

(** A batch that normalises in one world normalises, to the same records, in
    any world that shows the same time. *)
Lemma normalizes_in_same_time (ds : list DraftDict) (vs : list ValidDraftDict) (wa wb : World) :
  normalizes env user_profile wa ds vs wb ->
  forall w, now wa = now w ->
            exists w', normalizes env user_profile w ds vs w' /\ now wb = now w'.
Proof.
  induction 1 as [wa | wa d v wa1 ds vs wb Hd _ IH]; intros w Hnow.
  - exists w. split; [constructor | exact Hnow].
  - destruct (run_in_same_time env user_profile d wa w wa1 _ Hnow Hd) as (w1 & Hd' & Hnow1).
    destruct (IH w1 Hnow1) as (w' & Hn & Hnow').
    exists w'. split; [econstructor; eassumption | exact Hnow'].
Qed.

(** A request that returned normalised its whole batch and wrote it once. *)
Lemma create_drafts_returned_inv (ds : list DraftDict) (w w2 : World) (r : HttpResponse) :
  create_drafts env user_profile ds w = (Returned r, w2) ->
  exists vs w1,
    normalizes env user_profile w ds vs w1 /\
    r = json_success (map draft_id (assign_ids (next_id w1) (map (draft_of user_profile) vs))) /\
    w2 = snd (bulk_create (map (draft_of user_profile) vs) w1).
Proof.
  intros H.
  destruct (batch_normalizes_or_fails env user_profile ds w)
    as [(vs & w1 & Hn) | (pre & d & post & vs & w1 & e & w3 & -> & Hn & Hf)].
  - exists vs, w1. split; [exact Hn |].
    unfold create_drafts, bind in H.
    rewrite (collect_normalizes env user_profile w ds vs w1 Hn []) in H. cbn in H.
    injection H as <- <-. split; reflexivity.
  - unfold create_drafts, bind in H.
    rewrite (collect_first_error env user_profile w pre vs w1 d e w3 post Hn Hf []) in H.
    discriminate.
Qed.

(** A request that raised stopped at a descriptor of its batch. *)
Lemma create_drafts_raised_inv (ds : list DraftDict) (w w2 : World) (e : Exn) :
  create_drafts env user_profile ds w = (Raised e, w2) ->
  exists pre d post vs w1,
    ds = pre ++ d :: post /\
    normalizes env user_profile w pre vs w1 /\
    further_validated_draft_dict env d user_profile w1 = (Raised e, w2).
Proof.
  intros H.
  destruct (batch_normalizes_or_fails env user_profile ds w)
    as [(vs & w1 & Hn) | (pre & d & post & vs & w1 & e' & w3 & -> & Hn & Hf)].
  - unfold create_drafts, bind in H.
    rewrite (collect_normalizes env user_profile w ds vs w1 Hn []) in H. discriminate.
  - unfold create_drafts, bind in H.
    rewrite (collect_first_error env user_profile w pre vs w1 d e' w3 post Hn Hf []) in H.
    injection H as <- <-. now exists pre, d, post, vs, w1.
Qed.

Lemma create_drafts_of_normalizes (ds : list DraftDict) (vs : list ValidDraftDict) (w w1 : World) :
  normalizes env user_profile w ds vs w1 ->
  create_drafts env user_profile ds w
  = (Returned (json_success
                 (map draft_id (assign_ids (next_id w1) (map (draft_of user_profile) vs)))),
     snd (bulk_create (map (draft_of user_profile) vs) w1)).
Proof.
  intros Hn. unfold create_drafts, bind.
  now rewrite (collect_normalizes env user_profile w ds vs w1 Hn []).
Qed.

Lemma assign_ids_app (objs1 objs2 : list Draft) : forall first,
  assign_ids first (objs1 ++ objs2)
  = assign_ids first objs1 ++ assign_ids (first + Z.of_nat (List.length objs1)) objs2.
Proof.
  induction objs1 as [| o objs1 IH]; intros first; cbn [assign_ids app List.length].
  - now rewrite Z.add_0_r.
  - rewrite IH. do 3 f_equal. lia.
Qed.

Lemma assign_ids_invariant (objs : list Draft) : forall first,
  Forall (fun o => draft_invariant o = true) objs ->
  Forall (fun o => draft_invariant o = true) (assign_ids first objs).
Proof.
  induction objs as [| o objs IH]; intros first H; cbn; [constructor |].
  inversion H; subst. constructor; [assumption | now apply IH].
Qed.

Lemma normalizes_invariant (ds : list DraftDict) (vs : list ValidDraftDict) (w w1 : World) :
  normalizes env user_profile w ds vs w1 ->
  Forall (fun o => draft_invariant o = true) (map (draft_of user_profile) vs).
Proof.
  induction 1 as [w | w d v w0 ds vs w1 Hd _ IH]; cbn; constructor; [| exact IH].
  rewrite further_validated_draft_dict_run in Hd.
  unfold draft_invariant. cbn.
  destruct (contains_nul (truncate_body env (content d))) eqn:Hc; [discriminate |].
  destruct (lt_zero (rounded_timestamp d w)) eqn:Ht; [discriminate |].
  destruct (String.eqb (type d) "stream").
  - destruct (contains_nul (truncate_topic env (topic d))) eqn:Htopic; [discriminate |].
    destruct (to d) as [| to_0 [| to_1 rest]]; try discriminate.
    cbn zeta in Hd. destruct (resolve_stream env user_profile to_0); try discriminate.
    injection Hd as <- _. cbn. now rewrite Hc, Htopic, Ht.
  - destruct (String.eqb (type d) "private" && negb (Nat.eqb (List.length (to d)) 0)).
    + cbn zeta in Hd. destruct (find _ _); [discriminate |].
      destruct (derive_recipient env _ user_profile) as [r | [| m ms]]; try discriminate.
      injection Hd as <- _. cbn. now rewrite Hc, Ht.
    + injection Hd as <- _. cbn. now rewrite Hc, Ht.
Qed.

(** X2. The drafts table keeps its invariant through a request, however the
    request ends: when no draft in it held a null byte in content or topic
    or had a last edit time below zero before, none does after. *)
Theorem create_drafts_keeps_table_invariant
        (ds : list DraftDict) (w w2 : World) (o : Outcome HttpResponse) :
  create_drafts env user_profile ds w = (o, w2) ->
  Forall (fun row => draft_invariant row = true) (drafts_table w) ->
  Forall (fun row => draft_invariant row = true) (drafts_table w2).
Proof.
  intros H Hinv. destruct o as [r | e].
  - destruct (create_drafts_returned_inv _ _ _ _ H) as (vs & w1 & Hn & _ & ->).
    destruct (normalizes_quiet env _ _ _ _ _ Hn) as (Ht & _).
    cbn. rewrite Ht. apply Forall_app. split; [exact Hinv |].
    apply assign_ids_invariant. exact (normalizes_invariant _ _ _ _ Hn).
  - destruct (create_drafts_raised_inv _ _ _ _ H) as (pre & d & post & vs & w1 & _ & Hn & Hf).
    destruct (normalizes_quiet env _ _ _ _ _ Hn) as (Ht & _).
    destruct (quiet_further_validated_draft_dict env _ _ _ _ _ Hf) as (Ht2 & _).
    now rewrite Ht2, Ht.
Qed.


(** X10. Batching is all or nothing where single requests are not: when a
    first request succeeds and a second one raises, the drafts of the first
    stay in the table; the one request with both batches, run from the same
    start, raises the same error and leaves the table as it was. *)
Theorem one_request_is_atomic (ds1 ds2 : list DraftDict) (w wa wb : World)
        (r1 : HttpResponse) (e : Exn) :
  create_drafts env user_profile ds1 w = (Returned r1, wa) ->
  create_drafts env user_profile ds2 wa = (Raised e, wb) ->
  (exists created,
      drafts_table wb = drafts_table w ++ created /\
      List.length created = List.length ds1) /\
  exists wc,
    create_drafts env user_profile (ds1 ++ ds2) w = (Raised e, wc) /\
    drafts_table wc = drafts_table w.
Proof.
  intros H1 H2.
  destruct (create_drafts_returned_inv _ _ _ _ H1) as (vs1 & w1 & Hn1 & -> & ->).
  destruct (create_drafts_raised_inv _ _ _ _ H2)
    as (pre & d & post & vs2 & w2 & -> & Hn2 & Hf).
  destruct (normalizes_quiet env _ _ _ _ _ Hn1) as (Ht1 & _).
  destruct (normalizes_quiet env _ _ _ _ _ Hn2) as (Ht2 & _).
  destruct (quiet_further_validated_draft_dict env _ _ _ _ _ Hf) as (Htf & _).
  split.
  - eexists. split.
    + rewrite Htf, Ht2. cbn. rewrite Ht1. reflexivity.
    + rewrite assign_ids_length, length_map. exact (normalizes_length env _ _ _ _ _ Hn1).
  - destruct (normalizes_in_same_time _ _ _ _ Hn2 w1 eq_refl) as (w2' & Hn2' & Hnow).
    destruct (run_in_same_time env user_profile d w2 w2' wb _ Hnow Hf) as (wc & Hf' & _).
    pose proof (normalizes_app _ _ _ _ _ _ _ Hn1 Hn2') as Hn.
    exists wc. split.
    + unfold create_drafts, bind. rewrite app_assoc.
      now rewrite (collect_first_error env user_profile w (ds1 ++ pre) _ w2' d e wc post Hn Hf' []).
    + destruct (normalizes_quiet env _ _ _ _ _ Hn) as (Ht & _).
      destruct (quiet_further_validated_draft_dict env _ _ _ _ _ Hf') as (Htf' & _).
      now rewrite Htf', Ht.
Qed.

(** X11. A request that succeeds on a batch succeeds on every leading part
    of it: from the same start, the request with the first descriptors
    alone returns the first identifiers of the whole answer. *)
Theorem leading_part_succeeds (ds1 ds2 : list DraftDict) (w wc : World) (r : HttpResponse) :
  create_drafts env user_profile (ds1 ++ ds2) w = (Returned r, wc) ->
  exists wa,
    create_drafts env user_profile ds1 w
    = (Returned (json_success (firstn (List.length ds1) (response_ids r))), wa) /\
    drafts_table wa = firstn (List.length (drafts_table w) + List.length ds1) (drafts_table wc).
Proof.
  intros H.
  destruct (create_drafts_returned_inv _ _ _ _ H) as (vs & w2 & Hn & -> & ->).
  destruct (normalizes_app_inv _ _ _ _ _ Hn) as (vs1 & vs2 & w1 & -> & Hn1 & Hn2).
  destruct (normalizes_quiet env _ _ _ _ _ Hn1) as (Ht1 & Hi1 & _).
  destruct (normalizes_quiet env _ _ _ _ _ Hn2) as (Ht2 & Hi2 & _).
  pose proof (normalizes_length env _ _ _ _ _ Hn1) as Hlen.
  eexists. split.
  - rewrite (create_drafts_of_normalizes _ _ _ _ Hn1). f_equal. f_equal. cbn.
    rewrite map_app, assign_ids_app, map_app, Hi2.
    rewrite firstn_app.
    rewrite !length_map, assign_ids_length, length_map, Hlen, Nat.sub_diag. cbn.
    rewrite app_nil_r, firstn_all2; [reflexivity |].
    rewrite length_map, assign_ids_length, length_map. lia.
  - cbn. rewrite Ht2, Ht1, Hi2, map_app, assign_ids_app, app_assoc.
    rewrite firstn_app.
    rewrite length_app, assign_ids_length, length_map, Hlen, Nat.sub_diag. cbn.
    rewrite app_nil_r, firstn_all2; [reflexivity |].
    rewrite length_app, assign_ids_length, length_map. lia.
Qed.

(** X12. The clock is read once per descriptor, in input order: after a
    batch of [N] descriptors normalised, the clock has moved [N] times, and
    a descriptor without a timestamp, the [k]-th of the batch counting from
    zero, gets the rounded [k]-th reading as its last edit time. *)
Theorem missing_timestamps_follow_the_clock
        (ds : list DraftDict) (vs : list ValidDraftDict) (w w1 : World) :
  normalizes env user_profile w ds vs w1 ->
  now w1 = Nat.iter (List.length ds) (tick env) (now w) /\
  forall k d v,
    nth_error ds k = Some d ->
    nth_error vs k = Some v ->
    timestamp d = None ->
    vd_last_edit_time v
    = timestamp_to_datetime (round (PyFloat (Nat.iter k (tick env) (now w))) 6).
Proof.
  induction 1 as [w | w d0 v0 w0 ds vs w1 Hd _ [IHnow IHnth]].
  - split; [reflexivity |]. intros [| k] d v H; discriminate H.
  - destruct (returned_inv env _ _ _ _ _ Hd) as (Hc & _ & _ & Hl).
    pose proof (clock_after_run env user_profile d0 w) as Hclock.
    rewrite Hd, Hc in Hclock. cbn in Hclock.
    split.
    + cbn [List.length]. rewrite Nat.iter_succ_r, <- Hclock. exact IHnow.
    + intros [| k] d v Hk Hv Hts; cbn in Hk, Hv.
      * injection Hk as <-. injection Hv as <-.
        rewrite Hl. unfold rounded_timestamp. now rewrite Hts.
      * rewrite Nat.iter_succ_r, <- Hclock. now apply (IHnth k d v).
Qed.

End Requests.

(** ** Instances on the concrete server *)

Section FurtherOnDemo.

Import Demo.

Lemma returned_record_is_clean_witness :
  exists v w',
    further_validated_draft_dict env stream_draft hamlet world = (Returned v, w') /\
    vd_content v = "Let's add backend support." /\
    contains_nul (vd_topic v) = false /\
    lt_zero (timestamp_of (vd_last_edit_time v)) = false.
Proof.
  eexists. eexists.
  eassert (H : further_validated_draft_dict env stream_draft hamlet world = (Returned _, _))
    by (vm_compute; reflexivity).
  split; [exact H |].
  destruct (returned_record_is_clean env hamlet _ _ _ _ H) as (Hc & _ & Ht & _ & Hl).
  split; [exact Hc | split; [exact Ht | exact Hl]].
Defined.

Lemma create_drafts_keeps_table_invariant_witness :
  exists o w2,
    create_drafts env hamlet [stream_draft; private_draft] world = (o, w2) /\
    List.length (drafts_table w2) = 2%nat /\
    Forall (fun row => draft_invariant row = true) (drafts_table w2).
Proof.
  eexists. eexists.
  eassert (H : create_drafts env hamlet [stream_draft; private_draft] world = (_, _))
    by (vm_compute; reflexivity).
  split; [exact H | split; [reflexivity |]].
  apply (create_drafts_keeps_table_invariant env hamlet _ _ _ _ H). constructor.
Defined.

Lemma stream_accepted_only_if_accessible_witness :
  exists v w',
    type stream_draft = "stream" /\
    further_validated_draft_dict env stream_draft hamlet world = (Returned v, w') /\
    exists recipient, vd_recipient v = Some recipient /\ vd_topic v = "sync draft".
Proof.
  eexists. eexists.
  eassert (H : further_validated_draft_dict env stream_draft hamlet world = (Returned _, _))
    by (vm_compute; reflexivity).
  split; [reflexivity | split; [exact H |]].
  destruct (stream_accepted_only_if_accessible env hamlet stream_draft _ _ _ eq_refl H)
    as (to_0 & stream & recipient & sub & _ & _ & Hr & Ht & _).
  exists recipient. split; [exact Hr | exact Ht].
Defined.

Lemma private_accepted_only_if_all_visible_witness :
  exists v w',
    further_validated_draft_dict env private_draft hamlet world = (Returned v, w') /\
    Forall (fun user_id => visible_user env user_id (realm hamlet) <> None) [7; 8; 7].
Proof.
  eexists. eexists.
  eassert (H : further_validated_draft_dict env private_draft hamlet world = (Returned _, _))
    by (vm_compute; reflexivity).
  split; [exact H |].
  assert (Hto : to private_draft <> []) by discriminate.
  exact (private_accepted_only_if_all_visible env hamlet private_draft _ _ _
           demo_set_semantics eq_refl Hto H).
Defined.

Lemma recipient_null_iff_untargeted_witness :
  exists v w',
    further_validated_draft_dict env untyped_draft hamlet world = (Returned v, w') /\
    vd_recipient v = None.
Proof.
  eexists. eexists.
  eassert (H : further_validated_draft_dict env untyped_draft hamlet world = (Returned _, _))
    by (vm_compute; reflexivity).
  split; [exact H |].
  apply (proj1 (recipient_null_iff_untargeted env hamlet _ _ _ _ H)).
  split; [discriminate | left; discriminate].
Defined.



Lemma one_request_is_atomic_witness :
  exists r1 wa e wb wc,
    create_drafts env hamlet [stream_draft] world = (Returned r1, wa) /\
    create_drafts env hamlet [unknown_user_draft] wa = (Raised e, wb) /\
    List.length (drafts_table wb) = 1%nat /\
    create_drafts env hamlet ([stream_draft] ++ [unknown_user_draft]) world = (Raised e, wc) /\
    drafts_table wc = [].
Proof.
  eexists. eexists. eexists. eexists.
  eassert (H1 : create_drafts env hamlet [stream_draft] world = (Returned _, _))
    by (vm_compute; reflexivity).
  eassert (H2 : create_drafts env hamlet [unknown_user_draft] _ = (Raised _, _))
    by (vm_compute; reflexivity).
  destruct (one_request_is_atomic env hamlet _ _ _ _ _ _ _ H1 H2)
    as (_ & wc & Hrun & Ht).
  exists wc.
  split; [exact H1 | split; [exact H2 | split; [reflexivity | split; [exact Hrun | exact Ht]]]].
Defined.

Lemma leading_part_succeeds_witness :
  exists r wc wa,
    create_drafts env hamlet ([stream_draft] ++ [private_draft; untyped_draft]) world
    = (Returned r, wc) /\
    create_drafts env hamlet [stream_draft] world = (Returned (json_success [Some 1]), wa).
Proof.
  eexists. eexists.
  eassert (H : create_drafts env hamlet ([stream_draft] ++ [private_draft; untyped_draft]) world
               = (Returned _, _))
    by (vm_compute; reflexivity).
  destruct (leading_part_succeeds env hamlet _ _ _ _ _ H) as (wa & Hrun & _).
  exists wa. split; [exact H | exact Hrun].
Defined.

Lemma missing_timestamps_follow_the_clock_witness :
  exists vs w1,
    normalizes env hamlet world [stream_draft; untyped_draft] vs w1 /\
    now w1 = 1595479021.5%float /\
    forall v, nth_error vs 1 = Some v ->
              vd_last_edit_time v = utc_from_timestamp (PyFloat 1595479020.5).
Proof.
  eexists. eexists.
  eassert (Hn : normalizes env hamlet world [stream_draft; untyped_draft] _ _).
  { econstructor; [vm_compute; reflexivity |].
    econstructor; [vm_compute; reflexivity |]. constructor. }
  split; [exact Hn |].
  destruct (missing_timestamps_follow_the_clock env hamlet _ _ _ _ Hn) as [Hnow Hnth].
  split.
  - rewrite Hnow. vm_compute. reflexivity.
  - intros v Hv. rewrite (Hnth 1%nat untyped_draft v eq_refl Hv eq_refl).
    vm_compute. reflexivity.
Defined.

End FurtherOnDemo.
